(** * cyberchef_api_mcp_server/server.py: recipe encoding, transport, decoding

    A shallow embedding of [server.py].  Python values that travel through
    the module are JSON values; [dict]s are kept as insertion-ordered
    association lists, [list]s as lists.  Exceptions are explicit: a
    computation either returns a value or raises.  The HTTP exchange done by
    [httpx.post] is a hypothesis of the development (a function of the
    requests sent so far and the current request), and every request that is
    sent is recorded, so that "one POST, no retry" can be stated. *)

From Stdlib Require Import ZArith List String Ascii Bool Lia DecimalString.
From stdpp Require Import base list.
Import ListNotations.
Open Scope string_scope.
Open Scope Z_scope.
Set Warnings "-register-all".

(** ** JSON values (what [json.loads] yields, what pydantic hands over) *)

(** A Python [str] is kept as its UTF-8 bytes, the usual reading of a Rocq
    [string].  A [float] only matters here as "not an integer"; it carries
    its literal. *)
Inductive json : Type :=
| JNull
| JBool (b : bool)
| JInt (n : Z)
| JFloat (literal : string)
| JStr (s : string)
| JList (items : list json)
| JDict (fields : list (string * json)).

(** ** Python dict operations on association lists *)

Module Dict.

(** [d.get(k)] without the default: [None] when the key is absent. *)
Fixpoint lookup (k : string) (d : list (string * json)) : option json :=
  match d with
  | [] => None
  | (k', v) :: rest => if String.eqb k k' then Some v else lookup k rest
  end.

(** [d[k] = v]: overwrite in place when the key exists, append otherwise. *)
Fixpoint set (k : string) (v : json) (d : list (string * json))
  : list (string * json) :=
  match d with
  | [] => [(k, v)]
  | (k', v') :: rest =>
      if String.eqb k k' then (k', v) :: rest else (k', v') :: set k v rest
  end.

(** [d.get(k, dflt)] *)
Definition get (k : string) (dflt : json) (d : list (string * json)) : json :=
  match lookup k d with
  | Some v => v
  | None => dflt
  end.

End Dict.

(** ** The recipe model and the Recipe Encoder *)

(** [class CyberChefRecipeOperation(BaseModel)]: [op: str],
    [args: Optional[list] = None]. *)
Record CyberChefRecipeOperation : Type := {
  op : string;
  args : option (list json)
}.

(** Truthiness of [op.args] for an [Optional[list]]: [None] and [[]] are
    falsy. *)
Definition truthy_args (a : option (list json)) : bool :=
  match a with
  | None => false
  | Some [] => false
  | Some (_ :: _) => true
  end.

(** [len(op.args)], only evaluated where [op.args] is a list. *)
Definition len_args (a : option (list json)) : Z :=
  match a with
  | None => 0
  | Some l => Z.of_nat (length l)
  end.

(** [not op.args or len(op.args) == 0] *)
Definition no_args (o : CyberChefRecipeOperation) : bool :=
  negb (truthy_args (args o)) || (len_args (args o) =? 0).

(** [op.args and len(op.args) > 0] *)
Definition has_args (o : CyberChefRecipeOperation) : bool :=
  truthy_args (args o) && (0 <? len_args (args o)).

(** [isinstance(x, (dict, list))] *)
Definition is_dict_or_list (x : json) : bool :=
  match x with
  | JDict _ | JList _ => true
  | _ => false
  end.

(** [len(op.args) == 1 and not isinstance(op.args[0], (dict, list))] *)
Definition single_simple_arg (l : list json) : bool :=
  (Z.of_nat (length l) =? 1) &&
  match l with
  | x :: _ => negb (is_dict_or_list x)
  | [] => false
  end.

(** The body of the [for op in recipe] loop (lines 54-68): the object built
    for one descriptor.  Both arms of the inner [if] are kept as written. *)
Definition op_dict_of (o : CyberChefRecipeOperation) : json :=
  let op_dict := [("op", JStr (op o))] in
  if has_args o then
    match args o with
    | Some l =>
        if single_simple_arg l
        then JDict (Dict.set "args" (JList l) op_dict)
        else JDict (Dict.set "args" (JList l) op_dict)
    | None => JDict op_dict
    end
  else JDict op_dict.

(** [convert_recipe_to_api_format] (lines 31-70). *)
Definition convert_recipe_to_api_format (recipe : list CyberChefRecipeOperation)
  : list json :=
  match recipe with
  | [] => []
  | _ =>
      if forallb no_args recipe
      then map (fun o => JStr (op o)) recipe
      else map op_dict_of recipe
  end.

(** The encoder with the single-simple-argument test taken out: one fixed
    positional encoding of the arguments.  This is the reading of the
    design note "single fixed encoding", to be compared with the source. *)
Definition op_dict_single_encoding (o : CyberChefRecipeOperation) : json :=
  let op_dict := [("op", JStr (op o))] in
  if has_args o then
    match args o with
    | Some l => JDict (Dict.set "args" (JList l) op_dict)
    | None => JDict op_dict
    end
  else JDict op_dict.

Definition convert_recipe_single_encoding
  (recipe : list CyberChefRecipeOperation) : list json :=
  match recipe with
  | [] => []
  | _ =>
      if forallb no_args recipe
      then map (fun o => JStr (op o)) recipe
      else map op_dict_single_encoding recipe
  end.

(** ** Exceptions and results *)

(** What an [httpx.Response] offers to this module: its status code, the
    value [response.json()] yields ([None] when [json()] raises, and then
    the way it fails), and the text httpx derives from the response on a
    status error. *)

(** The ways [response.json()] fails: the body is not JSON
    ([json.JSONDecodeError]), its bytes are not valid in the encoding
    ([UnicodeDecodeError]), a number in it is beyond what [int] converts
    ([ValueError]), or it is nested too deep ([RecursionError]). *)
Inductive parse_failure : Type :=
| NotJSON
| BadEncoding
| BadNumber
| TooDeep.

Record http_response : Type := {
  status_code : Z;
  json_body : option json;
  (** how [json()] fails, for a response on which it does
      ([json_body = None]) *)
  json_failure : parse_failure;
  (** the text of the [HTTPStatusError] that [raise_for_status] builds for
      this response: kind of error, status line, URL, documentation link *)
  status_error_text : string
}.

(** The exception classes that can occur in this module.  The httpx
    errors carry the text [str(exc)] gives, which the module formats into
    its results; [InvalidURL] is an httpx error that is not a
    [RequestError]. *)
Inductive exn : Type :=
| HTTPStatusError (message : string) (response : http_response)
| RequestError (message : string)
| InvalidURL (message : string)
| JSONDecodeError
| UnicodeDecodeError
| ValueError
| TypeError
| KeyError (key : string)
| AttributeError
| OverflowError
| RecursionError.

(** The exception a failing [response.json()] raises. *)
Definition json_exception (f : parse_failure) : exn :=
  match f with
  | NotJSON => JSONDecodeError
  | BadEncoding => UnicodeDecodeError
  | BadNumber => ValueError
  | TooDeep => RecursionError
  end.

(** [isinstance(e, ValueError)]: [UnicodeDecodeError] and
    [json.JSONDecodeError] are subclasses of [ValueError]. *)
Definition is_ValueError (e : exn) : bool :=
  match e with
  | ValueError | UnicodeDecodeError | JSONDecodeError => true
  | _ => false
  end.

Definition is_TypeError (e : exn) : bool :=
  match e with
  | TypeError => true
  | _ => false
  end.

Inductive result (A : Type) : Type :=
| Return (a : A)
| Raise (e : exn).
Arguments Return {A} a.
Arguments Raise {A} e.

Definition bind {A B : Type} (r : result A) (k : A -> result B) : result B :=
  match r with
  | Return a => k a
  | Raise e => Raise e
  end.

Notation "'let*' x ':=' c1 'in' c2" := (bind c1 (fun x => c2))
  (at level 10, x name, c1 at level 100, c2 at level 200).

(** [try: body  except <classes>: handler]; exceptions outside the listed
    classes propagate. *)
Definition try_except {A : Type} (body : result A) (catches : exn -> bool)
  (handler : exn -> result A) : result A :=
  match body with
  | Return a => Return a
  | Raise e => if catches e then handler e else Raise e
  end.

(** ** Python built-ins used by the Response Decoder *)

(** [x.get(k)]: only a mapping has [get]; the missing-key default is
    [None]. *)
Definition py_get (x : json) (k : string) (dflt : json) : result json :=
  match x with
  | JDict d => Return (Dict.get k dflt d)
  | _ => Raise AttributeError
  end.

(** [x[k]] for a string key. *)
Definition py_getitem (x : json) (k : string) : result json :=
  match x with
  | JDict d =>
      match Dict.lookup k d with
      | Some v => Return v
      | None => Raise (KeyError k)
      end
  | _ => Raise TypeError
  end.

(** [x[k] = v] for a string key. *)
Definition py_setitem (x : json) (k : string) (v : json) : result json :=
  match x with
  | JDict d => Return (JDict (Dict.set k v d))
  | _ => Raise TypeError
  end.

(** [x is not None] *)
Definition is_not_None (x : json) : bool :=
  match x with
  | JNull => false
  | _ => true
  end.

(** [x == s] for a [str] literal [s]: only an equal [str] compares equal. *)
Definition py_eq_str (x : json) (s : string) : bool :=
  match x with
  | JStr t => String.eqb t s
  | _ => false
  end.

(** [sys.maxsize] of a 64-bit CPython: the largest index-sized integer. *)
Definition PY_SSIZE_T_MAX : Z := 2 ^ 63 - 1.

(** The header of a [bytes] object plus its closing zero byte, on a 64-bit
    CPython: a byte string holds at most [PY_SSIZE_T_MAX - 33] bytes. *)
Definition PyBytesObject_SIZE : Z := 33.

(** One item of an iterable handed to [bytes]: an integer (or [bool]) in
    [range(0, 256)], else [ValueError]; anything that is not an integer,
    [TypeError]. *)
Definition byte_of_item (x : json) : result Z :=
  match x with
  | JInt n => if (0 <=? n) && (n <? 256) then Return n else Raise ValueError
  | JBool b => Return (if b then 1 else 0)
  | _ => Raise TypeError
  end.

Fixpoint bytes_of_items (items : list json) : result (list Z) :=
  match items with
  | [] => Return []
  | x :: rest =>
      let* b := byte_of_item x in
      let* bs := bytes_of_items rest in
      Return (b :: bs)
  end.

(** [bytes(x)].  An integer asks for that many zero bytes: outside the
    index range, and above the largest size of a byte string, it is an
    [OverflowError]; negative, a [ValueError].  A [str] or a non-iterable is
    a [TypeError]; a list or a dict (its keys) is read item by item.  A
    count the platform has no memory for ends in [MemoryError]; how much
    memory there is lies outside this model, which lets every count up to
    the largest size through. *)
Definition py_bytes (x : json) : result (list Z) :=
  match x with
  | JNull => Raise TypeError
  | JFloat _ => Raise TypeError
  | JStr _ => Raise TypeError
  | JBool b => Return (repeat 0 (if b then 1%nat else 0%nat))
  | JInt n =>
      if (n <? - PY_SSIZE_T_MAX - 1) || (PY_SSIZE_T_MAX <? n) then Raise OverflowError
      else if n <? 0 then Raise ValueError
      else if PY_SSIZE_T_MAX - PyBytesObject_SIZE <? n then Raise OverflowError
      else Return (repeat 0 (Z.to_nat n))
  | JList items => bytes_of_items items
  | JDict d => bytes_of_items (map (fun kv => JStr (fst kv)) d)
  end.

(** Continuation byte [10xxxxxx]. *)
Definition cont (b : Z) : bool := (128 <=? b) && (b <=? 191).

Definition between (lo b hi : Z) : bool := (lo <=? b) && (b <=? hi).

(** Well-formed UTF-8 (strict: no overlong forms, no surrogates, nothing
    above U+10FFFF), the byte sequences [bytes.decode()] accepts. *)
Fixpoint utf8_valid (bs : list Z) : bool :=
  match bs with
  | [] => true
  | b0 :: r =>
      if between 0 b0 127 then utf8_valid r
      else if between 194 b0 223 then
        match r with
        | b1 :: r1 => cont b1 && utf8_valid r1
        | _ => false
        end
      else if between 224 b0 239 then
        match r with
        | b1 :: b2 :: r2 =>
            (if b0 =? 224 then between 160 b1 191
             else if b0 =? 237 then between 128 b1 159
             else cont b1)
            && cont b2 && utf8_valid r2
        | _ => false
        end
      else if between 240 b0 244 then
        match r with
        | b1 :: b2 :: b3 :: r3 =>
            (if b0 =? 240 then between 144 b1 191
             else if b0 =? 244 then between 128 b1 143
             else cont b1)
            && cont b2 && cont b3 && utf8_valid r3
        | _ => false
        end
      else false
  end.

Definition string_of_bytes (bs : list Z) : string :=
  string_of_list_ascii (map (fun b => ascii_of_N (Z.to_N b)) bs).

(** [b.decode()]: UTF-8, strict.  The decoded [str] is kept as its UTF-8
    bytes, so decoding checks the bytes and keeps them. *)
Definition bytes_decode (bs : list Z) : result string :=
  if utf8_valid bs then Return (string_of_bytes bs) else Raise UnicodeDecodeError.

(** ** The Response Decoder *)

(** The [try] block of lines 151-154 (and, word for word, 185-188).  The
    two assignments cannot fail on a mapping, so a failure leaves the
    mapping as it was. *)
Definition decode_in_place (response_data : json) : result json :=
  let* value := py_getitem response_data "value" in
  let* raw := py_bytes value in
  let* decoded_value := bytes_decode raw in
  let* r1 := py_setitem response_data "value" (JStr decoded_value) in
  py_setitem r1 "type" (JStr "string").

(** Lines 149-158 of [bake_recipe]; the body of the loop of
    [batch_bake_recipe] (lines 183-190) is the same text applied to
    [response]. *)
Definition decode_response (response_data : json) : result json :=
  let* data_type := py_get response_data "type" JNull in
  if is_not_None data_type && py_eq_str data_type "byteArray" then
    try_except (decode_in_place response_data)
      (fun e => is_ValueError e || is_TypeError e)
      (fun _ => Return response_data)
  else Return response_data.

(** The loop of lines 182-190: [for response in response_data], each
    element mutated in place.  [store] is the list as it stands, [i] the
    iterator's index, [n] bounds the number of iterations. *)
Fixpoint batch_loop (n : nat) (i : nat) (store : list json) : result (list json) :=
  match n with
  | O => Return store
  | S n' =>
      match store !! i with
      | None => Return store
      | Some response =>
          let* response' := decode_response response in
          batch_loop n' (S i) (<[i := response']> store)
      end
  end.

(** Lines 181-192 of [batch_bake_recipe]. *)
Definition decode_batch_response (response_data : json) : result json :=
  match response_data with
  | JList l =>
      let* l' := batch_loop (length l) 0 l in
      Return (JList l')
  | _ => Return response_data
  end.

(** ** The HTTP exchange *)

(** One call of [httpx.post]. *)
Record http_request : Type := {
  url : string;
  headers : list (string * string);
  json_payload : json;
  timeout : Z
}.

(** What a call of [httpx.post] ends in: a response, or an exception. *)
Inductive post_outcome : Type :=
| Responded (r : http_response)
| PostRaises (e : exn).

(** Computations that call [httpx.post]: the calls made so far are threaded
    through, and survive an exception. *)
Definition M (A : Type) : Type := list http_request -> result A * list http_request.

Definition ret {A : Type} (a : A) : M A := fun sent => (Return a, sent).

Definition lift {A : Type} (r : result A) : M A := fun sent => (r, sent).

Definition bindM {A B : Type} (c : M A) (k : A -> M B) : M B :=
  fun sent =>
    match c sent with
    | (Return a, sent') => k a sent'
    | (Raise e, sent') => (Raise e, sent')
    end.

Notation "'let!' x ':=' c1 'in' c2" := (bindM c1 (fun x => c2))
  (at level 10, x name, c1 at level 100, c2 at level 200).

(** [try: body  except ...] around code that talks to the network: the
    first matching [except] clause runs ([handlers e = Some h]); an
    exception no clause names propagates. *)
Definition try_except_M {A : Type} (body : M A) (handlers : exn -> option (M A))
  : M A :=
  fun sent =>
    match body sent with
    | (Return a, sent') => (Return a, sent')
    | (Raise e, sent') =>
        match handlers e with
        | Some h => h sent'
        | None => (Raise e, sent')
        end
    end.

(** [response.raise_for_status()]: returns on a 2xx status and raises
    [HTTPStatusError] on every other one. *)
Definition raise_for_status (r : http_response) : result unit :=
  if (200 <=? status_code r) && (status_code r <=? 299) then Return tt
  else Raise (HTTPStatusError (status_error_text r) r).

(** [response.json()] *)
Definition response_json (r : http_response) : result json :=
  match json_body r with
  | Some j => Return j
  | None => Raise (json_exception (json_failure r))
  end.

(** Lines 19-22, run once at import: [os.getenv("CYBERCHEF_API_URL")],
    replaced by the local default only when the variable is unset
    ([None]); a variable set to the empty string stays empty. *)
Definition configured_api_url (env_value : option string) : string :=
  match env_value with
  | None => "http://localhost:3000/"
  | Some value => value
  end.

(** [str(n)] for an [int]. *)
Definition str_of_int (n : Z) : string := NilZero.string_of_int (Z.to_int n).

Section Server.

(** The module-level [cyberchef_api_url], fixed at import time. *)
Variable cyberchef_api_url : string.

(** The world behind [httpx.post]: what a call ends in, given the calls
    made before it. *)
Variable network : list http_request -> http_request -> post_outcome.

(** [repr] of a value whose printing is not computed here (a float, a
    list, a dict), as an f-string prints it. *)
Variable container_repr : json -> string.

(** [f"{x}"] *)
Definition py_format (x : json) : string :=
  match x with
  | JStr s => s
  | JInt n => str_of_int n
  | JBool true => "True"
  | JBool false => "False"
  | JNull => "None"
  | JFloat _ | JList _ | JDict _ => container_repr x
  end.

Definition httpx_post (u : string) (h : list (string * string))
  (payload : json) (t : Z) : M http_response :=
  fun sent =>
    let rq := {| url := u; headers := h; json_payload := payload; timeout := t |} in
    match network sent rq with
    | Responded r => (Return r, (sent ++ [rq])%list)
    | PostRaises e => (Raise e, (sent ++ [rq])%list)
    end.

(** The Error Result built from a status error (lines 102 and 104). *)
Definition http_error (code : Z) (detail : string) : json :=
  JDict [("error", JStr ("HTTP " ++ str_of_int code ++ ": " ++ detail))].

(** The [except httpx.HTTPStatusError] clause (lines 99-104). *)
Definition on_status_error (message : string) (response : http_response)
  : result json :=
  try_except
    (let* error_data := response_json response in
     let* detail := py_get error_data "message" (JStr message) in
     Return (http_error (status_code response) (py_format detail)))
    (fun _ => true)
    (fun _ => Return (http_error (status_code response) message)).

(** [create_api_request] (lines 73-107). *)
Definition create_api_request (endpoint : string) (request_data : json) : M json :=
  let api_url := cyberchef_api_url ++ endpoint in
  let request_headers :=
    [("Accept", "application/json"); ("Content-Type", "application/json")] in
  try_except_M
    (let! response := httpx_post api_url request_headers request_data 30 in
     let! _ := lift (raise_for_status response) in
     lift (response_json response))
    (fun exc =>
       match exc with
       | HTTPStatusError message response =>
           Some (lift (on_status_error message response))
       | RequestError message =>
           Some (ret (JDict [("error",
                   JStr ("Exception raised during HTTP POST request to "
                         ++ api_url ++ " - " ++ message))]))
       | _ => None
       end).

(** [bake_recipe] (lines 130-158). *)
Definition bake_recipe (input_data : string)
  (recipe : list CyberChefRecipeOperation) : M json :=
  let api_recipe := convert_recipe_to_api_format recipe in
  let request_data :=
    JDict [("input", JStr input_data); ("recipe", JList api_recipe)] in
  let! response_data := create_api_request "bake" request_data in
  lift (decode_response response_data).

(** [batch_bake_recipe] (lines 162-192). *)
Definition batch_bake_recipe (batch_input_data : list string)
  (recipe : list CyberChefRecipeOperation) : M json :=
  let api_recipe := convert_recipe_to_api_format recipe in
  let request_data :=
    JDict [("input", JList (map JStr batch_input_data));
           ("recipe", JList api_recipe)] in
  let! response_data := create_api_request "batch/bake" request_data in
  lift (decode_batch_response response_data).

(** [perform_magic_operation] (lines 196-223).  An argument the caller
    leaves out is [None] and takes the default of the signature. *)
Definition perform_magic_operation (input_data : string)
  (depth : option Z) (intensive_mode : option bool)
  (extensive_language_support : option bool) (crib_str : option string)
  : M json :=
  let depth := default 3 depth in
  let intensive_mode := default false intensive_mode in
  let extensive_language_support := default false extensive_language_support in
  let crib_str := default "" crib_str in
  let request_data :=
    JDict [("input", JStr input_data);
           ("args", JDict [("depth", JInt depth);
                           ("intensive_mode", JBool intensive_mode);
                           ("extensive_language_support",
                            JBool extensive_language_support);
                           ("crib", JStr crib_str)])] in
  create_api_request "magic" request_data.

End Server.

(** ** Vocabulary of the statements *)

(** A descriptor without arguments: [args] absent or of length zero. *)
Definition arg_free (o : CyberChefRecipeOperation) : Prop :=
  args o = None \/ args o = Some [].

(** A descriptor with at least one argument. *)
Definition arg_bearing (o : CyberChefRecipeOperation) : Prop :=
  exists x l, args o = Some (x :: l).

(** The object shape of the wire recipe for one descriptor: [op] always,
    [args] exactly when the descriptor bears arguments. *)
Definition wire_object (o : CyberChefRecipeOperation) : json :=
  JDict (("op", JStr (op o)) ::
         match args o with
         | Some (x :: l) => [("args", JList (x :: l))]
         | _ => []
         end).

Definition is_bare (j : json) : Prop := exists name, j = JStr name.
Definition is_object (j : json) : Prop := exists fields, j = JDict fields.

(** A result mapping tagged as a byte array. *)
Definition byteArray_typed (d : list (string * json)) : Prop :=
  Dict.lookup "type" d = Some (JStr "byteArray").

(** A value that is not a bare integer.  For an integer, [bytes] allocates
    that many zero bytes, which fails with [OverflowError] or [MemoryError]
    when the count is too large for the platform. *)
Definition not_a_count (v : json) : Prop :=
  match v with
  | JInt _ => False
  | _ => True
  end.

(** The text [bytes(v).decode()] gives, when it gives one. *)
Definition decoded_text (v : json) : option string :=
  match py_bytes v with
  | Return raw => if utf8_valid raw then Some (string_of_bytes raw) else None
  | Raise _ => None
  end.

(** A result mapping after a successful decode: [value] holds the text,
    [type] is ["string"]. *)
Definition rewritten (d : list (string * json)) (text : string) : json :=
  JDict (Dict.set "type" (JStr "string") (Dict.set "value" (JStr text) d)).

(** A byte-array result whose [value] decodes to [text]. *)
Definition valid_byte_array (d : list (string * json)) (text : string) : Prop :=
  byteArray_typed d /\
  exists v, Dict.lookup "value" d = Some v /\ not_a_count v /\
            decoded_text v = Some text.

(** A byte-array result whose [value] does not decode: not a sequence, an
    element that is not a byte, or bytes that are not UTF-8. *)
Definition malformed_byte_array (d : list (string * json)) : Prop :=
  byteArray_typed d /\
  exists v, Dict.lookup "value" d = Some v /\ not_a_count v /\
            decoded_text v = None.

(** Element by element, left to right, stopping at the first exception. *)
Fixpoint each (f : json -> result json) (l : list json) : result (list json) :=
  match l with
  | [] => Return []
  | x :: rest =>
      let* y := f x in
      let* ys := each f rest in
      Return (y :: ys)
  end.

(** A batch element the decode pass can handle: a mapping which, when it
    is tagged as a byte array, has a [value] that is not a bare integer. *)
Definition decodable_entry (x : json) : Prop :=
  exists d, x = JDict d /\
    (byteArray_typed d ->
     exists v, Dict.lookup "value" d = Some v /\ not_a_count v).

(** The engine's answer of the end-to-end example. *)
Definition hello_bytes : json :=
  JDict [("type", JStr "byteArray");
         ("value", JList [JInt 104; JInt 101; JInt 108; JInt 108; JInt 111])].

(** The call of [httpx.post] that [create_api_request] makes. *)
Definition post_request (base endpoint : string) (request_data : json)
  : http_request :=
  {| url := base ++ endpoint;
     headers := [("Accept", "application/json");
                 ("Content-Type", "application/json")];
     json_payload := request_data;
     timeout := 30 |}.

(** A 2xx status. *)
Definition success_status (r : http_response) : Prop :=
  200 <= status_code r <= 299.

(** What follows ["HTTP <status>: "] in the Error Result of a status
    error: the [message] field of a JSON-object body when it has one, the
    text of the status error otherwise. *)
Definition status_detail (container_repr : json -> string) (r : http_response)
  : string :=
  match json_body r with
  | Some (JDict d) =>
      py_format container_repr (Dict.get "message" (JStr (status_error_text r)) d)
  | _ => status_error_text r
  end.

(** The request body of a magic call that leaves every option out. *)
Definition default_magic_body (input_data : string) : json :=
  JDict [("input", JStr input_data);
         ("args", JDict [("depth", JInt 3);
                         ("intensive_mode", JBool false);
                         ("extensive_language_support", JBool false);
                         ("crib", JStr "")])].

(** An engine that gives the same answer to every request. *)
Definition answers (r : http_response)
  : list http_request -> http_request -> post_outcome :=
  fun _ _ => Responded r.

Definition boom_response : http_response :=
  {| status_code := 500;
     json_body := Some (JDict [("message", JStr "boom")]);
     json_failure := NotJSON;
     status_error_text := "Server error '500 Internal Server Error'" |}.

Definition ok_response (j : json) : http_response :=
  {| status_code := 200; json_body := Some j; json_failure := NotJSON;
     status_error_text := "" |}.

Definition plain_repr : json -> string := fun _ => "[...]".

(** What a descriptor says once "no arguments" is written one way: its
    name and its argument list, an absent list read as the empty one. *)
Definition normal_form (o : CyberChefRecipeOperation) : string * list json :=
  (op o, match args o with Some l => l | None => [] end).

Definition of_normal_form (p : string * list json) : CyberChefRecipeOperation :=
  {| op := fst p; args := Some (snd p) |}.

(** Reading one element of a wire recipe back: a bare name has no
    arguments, an object gives its [op] and its [args]. *)
Definition wire_descriptor (j : json) : string * list json :=
  match j with
  | JStr name => (name, [])
  | JDict fields =>
      (match Dict.lookup "op" fields with Some (JStr name) => name | _ => "" end,
       match Dict.lookup "args" fields with Some (JList l) => l | _ => [] end)
  | _ => ("", [])
  end.

(** The exceptions [create_api_request] has an [except] clause for. *)
Definition transport_catches (e : exn) : bool :=
  match e with
  | HTTPStatusError _ _ | RequestError _ => true
  | _ => false
  end.

(** The request bodies of the two bake tools. *)
Definition bake_body (input_data : string)
  (recipe : list CyberChefRecipeOperation) : json :=
  JDict [("input", JStr input_data);
         ("recipe", JList (convert_recipe_to_api_format recipe))].

Definition batch_bake_body (batch_input_data : list string)
  (recipe : list CyberChefRecipeOperation) : json :=
  JDict [("input", JList (map JStr batch_input_data));
         ("recipe", JList (convert_recipe_to_api_format recipe))].

(** The request body of a magic call, options given or left out. *)
Definition magic_body (input_data : string) (depth : option Z)
  (intensive_mode extensive_language_support : option bool)
  (crib_str : option string) : json :=
  JDict [("input", JStr input_data);
         ("args", JDict [("depth", JInt (default 3 depth));
                         ("intensive_mode", JBool (default false intensive_mode));
                         ("extensive_language_support",
                          JBool (default false extensive_language_support));
                         ("crib", JStr (default "" crib_str))])].

(** An engine that cannot be reached. *)
Definition unreachable (message : string)
  : list http_request -> http_request -> post_outcome :=
  fun _ _ => PostRaises (RequestError message).

(** A byte of the ASCII range, as an element of a JSON array. *)
Definition ascii_item (x : json) : Prop :=
  exists n, x = JInt n /\ 0 <= n <= 127.

(** An element that [bytes] rejects: an integer outside [range(0, 256)] or
    a value that is not an integer. *)
Definition bad_item (x : json) : Prop :=
  match x with
  | JInt n => n < 0 \/ 255 < n
  | JBool _ => False
  | _ => True
  end.

(** A byte value that occurs in no UTF-8 text: [0xC0], [0xC1] and
    [0xF5]-[0xFF]. *)
Definition never_in_utf8 (b : Z) : Prop :=
  b = 192 \/ b = 193 \/ 245 <= b <= 255.

(** An exchange that failed in a way [create_api_request] has a clause
    for: a response with a status outside 2xx, or an [httpx] status or
    request error. *)
Definition failed_exchange (o : post_outcome) : Prop :=
  match o with
  | Responded r => ~ success_status r
  | PostRaises e => transport_catches e = true
  end.

(** * Recipe Encoder *)

Open Scope list_scope.

Lemma no_args_arg_free o : no_args o = true <-> arg_free o.
Proof.
  unfold no_args, arg_free.
  destruct (args o) as [[|x l]|] eqn:E; simpl.
  - split; auto.
  - split; [discriminate | intros [H|H]; discriminate].
  - split; auto.
Qed.

Lemma no_args_false_bearing o : no_args o = false <-> arg_bearing o.
Proof.
  unfold no_args, arg_bearing.
  destruct (args o) as [[|x l]|] eqn:E; simpl.
  - split; [discriminate | intros (x & l & H); discriminate].
  - split; eauto.
  - split; [discriminate | intros (x & l & H); discriminate].
Qed.

Lemma forallb_no_args recipe :
  forallb no_args recipe = true <-> List.Forall arg_free recipe.
Proof.
  rewrite forallb_forall, List.Forall_forall.
  split; intros H o Ho; apply no_args_arg_free; auto.
Qed.

Lemma forallb_no_args_false recipe :
  forallb no_args recipe = false <-> List.Exists arg_bearing recipe.
Proof.
  induction recipe as [|o recipe IH]; simpl.
  - split; [discriminate | intros H; inversion H].
  - rewrite andb_false_iff, IH, no_args_false_bearing.
    split.
    + intros [H|H]; [now left | now right].
    + intros H; inversion H; subst; auto.
Qed.

Lemma op_dict_of_wire_object o : op_dict_of o = wire_object o.
Proof.
  unfold op_dict_of, wire_object, has_args.
  destruct (args o) as [[|x l]|]; simpl; try reflexivity.
  destruct (single_simple_arg (x :: l)); reflexivity.
Qed.

Lemma convert_bare recipe :
  forallb no_args recipe = true ->
  convert_recipe_to_api_format recipe = map (fun o => JStr (op o)) recipe.
Proof.
  intros H. unfold convert_recipe_to_api_format.
  destruct recipe; [reflexivity | now rewrite H].
Qed.

Lemma convert_objects recipe :
  forallb no_args recipe = false ->
  convert_recipe_to_api_format recipe = map wire_object recipe.
Proof.
  intros H. unfold convert_recipe_to_api_format.
  destruct recipe as [|o recipe]; [discriminate|].
  rewrite H. apply map_ext. intros; apply op_dict_of_wire_object.
Qed.

(** C2. A recipe whose descriptors all lack arguments (absent or empty)
    is encoded as the ordered list of its operation names; the empty
    recipe as the empty list; and a bare name appears in an output only
    when every descriptor of the recipe lacks arguments.  The recipe
    [[{op: "To Upper case"}]] is encoded as [["To Upper case"]]. *)
Theorem encoder_bare_names :
  (forall recipe, List.Forall arg_free recipe ->
     convert_recipe_to_api_format recipe = map (fun o => JStr (op o)) recipe) /\
  convert_recipe_to_api_format [] = [] /\
  (forall recipe name,
     In (JStr name) (convert_recipe_to_api_format recipe) ->
     List.Forall arg_free recipe) /\
  convert_recipe_to_api_format [{| op := "To Upper case"; args := None |}]
    = [JStr "To Upper case"].
Proof.
  split; [|split; [|split]]; try reflexivity.
  - intros recipe H. apply convert_bare, forallb_no_args, H.
  - intros recipe name Hin.
    destruct (forallb no_args recipe) eqn:E.
    + now apply forallb_no_args.
    + rewrite (convert_objects _ E) in Hin.
      apply in_map_iff in Hin as (o & Ho & _). discriminate Ho.
Qed.

Lemma encoder_bare_names_witness :
  convert_recipe_to_api_format
    [{| op := "to decimal"; args := None |}; {| op := "MD5"; args := Some [] |}]
  = [JStr "to decimal"; JStr "MD5"].
Proof.
  apply (proj1 encoder_bare_names
           [{| op := "to decimal"; args := None |}; {| op := "MD5"; args := Some [] |}]).
  apply List.Forall_cons; [left; reflexivity|].
  apply List.Forall_cons; [right; reflexivity|].
  apply List.Forall_nil.
Defined.

(** C3. When at least one descriptor bears arguments, every descriptor is
    encoded as an object whose [op] is its name; the object has an [args]
    field exactly when the descriptor bears arguments, and that field is
    the descriptor's argument list as given.  No output mixes bare names
    and objects. *)
Theorem encoder_object_shape :
  (forall recipe, List.Exists arg_bearing recipe ->
     convert_recipe_to_api_format recipe = map wire_object recipe) /\
  (forall o, exists fields,
     wire_object o = JDict fields /\
     Dict.lookup "op" fields = Some (JStr (op o)) /\
     (forall x l, args o = Some (x :: l) ->
        Dict.lookup "args" fields = Some (JList (x :: l))) /\
     (arg_free o -> Dict.lookup "args" fields = None)) /\
  (forall recipe,
     List.Forall is_bare (convert_recipe_to_api_format recipe) \/
     List.Forall is_object (convert_recipe_to_api_format recipe)).
Proof.
  split; [|split].
  - intros recipe H. apply convert_objects, forallb_no_args_false, H.
  - intros o. unfold wire_object. eexists; split; [reflexivity|].
    split; [reflexivity|]. split.
    + intros x l E. rewrite E. reflexivity.
    + intros [E|E]; rewrite E; reflexivity.
  - intros recipe. destruct (forallb no_args recipe) eqn:E.
    + left. rewrite (convert_bare _ E). apply List.Forall_forall.
      intros j Hj. apply in_map_iff in Hj as (o & <- & _). now exists (op o).
    + right. rewrite (convert_objects _ E). apply List.Forall_forall.
      intros j Hj. apply in_map_iff in Hj as (o & <- & _).
      unfold wire_object. eexists; reflexivity.
Qed.

Lemma encoder_object_shape_witness :
  convert_recipe_to_api_format
    [{| op := "From Hex"; args := None |};
     {| op := "To Morse Code"; args := Some [JStr "Dash/Dot"; JStr "Backslash"] |}]
  = [JDict [("op", JStr "From Hex")];
     JDict [("op", JStr "To Morse Code");
            ("args", JList [JStr "Dash/Dot"; JStr "Backslash"])]].
Proof.
  apply (proj1 encoder_object_shape
           [{| op := "From Hex"; args := None |};
            {| op := "To Morse Code";
               args := Some [JStr "Dash/Dot"; JStr "Backslash"] |}]).
  right; left. exists (JStr "Dash/Dot"), [JStr "Backslash"]. reflexivity.
Defined.

(** C9. The two arms of the single-simple-argument test build the same
    object: for a descriptor with arguments, a single scalar or not, the
    [args] field is the argument list as given, and the encoder without
    the test computes the same function as the encoder as written. *)
Theorem encoder_branches_agree :
  (forall recipe,
     convert_recipe_to_api_format recipe = convert_recipe_single_encoding recipe) /\
  (forall o x l, args o = Some (x :: l) ->
     op_dict_of o = JDict [("op", JStr (op o)); ("args", JList (x :: l))]).
Proof.
  assert (Hop : forall o, op_dict_of o = op_dict_single_encoding o).
  { intros o. unfold op_dict_of, op_dict_single_encoding.
    destruct (has_args o); [|reflexivity].
    destruct (args o) as [l|]; [|reflexivity].
    case (single_simple_arg l); reflexivity. }
  split.
  - intros [|o recipe]; [reflexivity|].
    unfold convert_recipe_to_api_format, convert_recipe_single_encoding.
    case (forallb no_args (o :: recipe)); [reflexivity|].
    apply map_ext, Hop.
  - intros o x l E. rewrite op_dict_of_wire_object. unfold wire_object.
    rewrite E. reflexivity.
Qed.

Lemma encoder_branches_agree_witness :
  op_dict_of {| op := "To Hex"; args := Some [JStr "Colon"] |}
    = JDict [("op", JStr "To Hex"); ("args", JList [JStr "Colon"])] /\
  op_dict_of {| op := "XOR"; args := Some [JDict [("option", JStr "Hex")]; JBool false] |}
    = JDict [("op", JStr "XOR");
             ("args", JList [JDict [("option", JStr "Hex")]; JBool false])].
Proof.
  split.
  - apply (proj2 encoder_branches_agree
             {| op := "To Hex"; args := Some [JStr "Colon"] |}). reflexivity.
  - apply (proj2 encoder_branches_agree
             {| op := "XOR"; args := Some [JDict [("option", JStr "Hex")]; JBool false] |}).
    reflexivity.
Defined.

(** * Response Decoder *)

Lemma dict_lookup_set k k' v d :
  Dict.lookup k (Dict.set k' v d)
  = if String.eqb k k' then Some v else Dict.lookup k d.
Proof.
  induction d as [|[k0 v0] d IH]; simpl.
  - reflexivity.
  - destruct (String.eqb k' k0) eqn:E'; simpl.
    + apply String.eqb_eq in E'. subst k0.
      destruct (String.eqb k k'); reflexivity.
    + rewrite IH. destruct (String.eqb k k0) eqn:E0; [|reflexivity].
      apply String.eqb_eq in E0. subst k0.
      rewrite String.eqb_sym, E'. reflexivity.
Qed.

Lemma rewritten_type d text :
  exists d', rewritten d text = JDict d' /\
             Dict.lookup "type" d' = Some (JStr "string") /\
             Dict.lookup "value" d' = Some (JStr text).
Proof.
  unfold rewritten. eexists; split; [reflexivity|].
  rewrite !dict_lookup_set. split; reflexivity.
Qed.

Lemma byte_of_item_exn x e :
  byte_of_item x = Raise e -> e = ValueError \/ e = TypeError.
Proof.
  destruct x as [|b|n|lit|s|items|d]; simpl; intros H;
    try (injection H as <-; auto).
  - discriminate H.
  - destruct ((0 <=? n) && (n <? 256)); [discriminate H | injection H as <-; auto].
Qed.

Lemma bytes_of_items_exn items e :
  bytes_of_items items = Raise e -> e = ValueError \/ e = TypeError.
Proof.
  induction items as [|x items IH]; simpl; [discriminate|].
  destruct (byte_of_item x) eqn:Ex; simpl.
  - destruct (bytes_of_items items); simpl; [discriminate|].
    intros [= <-]. now apply IH.
  - intros [= <-]. now apply byte_of_item_exn in Ex.
Qed.

Lemma py_bytes_exn v e :
  not_a_count v -> py_bytes v = Raise e -> e = ValueError \/ e = TypeError.
Proof.
  destruct v as [|b|n|lit|s|items|d]; simpl; intros Hv H.
  - injection H as <-. auto.
  - discriminate H.
  - contradiction.
  - injection H as <-. auto.
  - injection H as <-. auto.
  - eapply bytes_of_items_exn, H.
  - eapply bytes_of_items_exn, H.
Qed.

(** The decoder on a mapping tagged as a byte array, without any
    assumption on [value]. *)
Lemma decode_response_tagged d :
  byteArray_typed d ->
  decode_response (JDict d)
  = try_except (decode_in_place (JDict d))
      (fun e => is_ValueError e || is_TypeError e)
      (fun _ => Return (JDict d)).
Proof.
  intros Ht. unfold decode_response, py_get, Dict.get. rewrite Ht. reflexivity.
Qed.

Lemma decode_response_untagged d :
  ~ byteArray_typed d -> decode_response (JDict d) = Return (JDict d).
Proof.
  unfold byteArray_typed, decode_response, py_get, Dict.get. intros Ht.
  destruct (Dict.lookup "type" d) as [t|]; [|reflexivity].
  destruct t; try reflexivity. simpl.
  destruct (String.eqb s "byteArray") eqn:E; [|reflexivity].
  apply String.eqb_eq in E. subst s. now contradiction Ht.
Qed.

Lemma decode_in_place_value d v :
  Dict.lookup "value" d = Some v ->
  decode_in_place (JDict d)
  = let* raw := py_bytes v in
    let* text := bytes_decode raw in
    Return (rewritten d text).
Proof.
  intros Hv. unfold decode_in_place, py_getitem. rewrite Hv. simpl.
  destruct (py_bytes v); simpl; [|reflexivity].
  destruct (bytes_decode a); reflexivity.
Qed.

Lemma decode_response_byteArray d v :
  byteArray_typed d -> Dict.lookup "value" d = Some v -> not_a_count v ->
  decode_response (JDict d)
  = Return match decoded_text v with
           | Some text => rewritten d text
           | None => JDict d
           end.
Proof.
  intros Ht Hv Hs.
  rewrite (decode_response_tagged _ Ht), (decode_in_place_value _ _ Hv).
  unfold decoded_text, bytes_decode.
  destruct (py_bytes v) as [raw|e] eqn:E; simpl.
  - destruct (utf8_valid raw); reflexivity.
  - destruct (py_bytes_exn _ _ Hs E) as [-> | ->]; reflexivity.
Qed.

Lemma decode_in_place_Return d out :
  decode_in_place (JDict d) = Return out -> exists text, out = rewritten d text.
Proof.
  unfold decode_in_place, py_getitem.
  destruct (Dict.lookup "value" d) as [v|]; simpl; [|discriminate].
  destruct (py_bytes v) as [raw|]; simpl; [|discriminate].
  destruct (bytes_decode raw) as [text|]; simpl; [|discriminate].
  intros [= <-]. now exists text.
Qed.

Lemma decode_response_rewritten d text :
  decode_response (rewritten d text) = Return (rewritten d text).
Proof.
  destruct (rewritten_type d text) as (d' & -> & Ht & _).
  apply decode_response_untagged. unfold byteArray_typed. rewrite Ht.
  discriminate.
Qed.

Lemma decode_response_Return x out :
  decode_response x = Return out -> is_object x /\ is_object out.
Proof.
  destruct x; try discriminate. intros H. split; [now eexists|].
  revert H. unfold decode_response, py_get. simpl.
  destruct (_ && _).
  - unfold try_except.
    destruct (decode_in_place (JDict fields)) as [a|e] eqn:E.
    + intros [= <-]. apply decode_in_place_Return in E as [text ->].
      unfold rewritten. now eexists.
    + destruct (_ || _); [intros [= <-]; now eexists | discriminate].
  - intros [= <-]. now eexists.
Qed.

Lemma decode_response_twice x :
  (let* once := decode_response x in decode_response once) = decode_response x.
Proof.
  destruct x as [| | | | | |d]; try reflexivity.
  destruct (decode_response (JDict d)) as [out|e] eqn:E; [|reflexivity].
  simpl. revert E. unfold decode_response at 1, py_get. simpl.
  destruct (_ && _) eqn:C.
  - unfold try_except.
    destruct (decode_in_place (JDict d)) as [a|e] eqn:Ein.
    + intros [= <-]. apply decode_in_place_Return in Ein as [text ->].
      apply decode_response_rewritten.
    + destruct (_ || _) eqn:Ec; [|discriminate].
      intros [= <-]. unfold decode_response, py_get. simpl.
      rewrite C. unfold try_except. rewrite Ein, Ec. reflexivity.
  - intros [= <-]. unfold decode_response, py_get. simpl.
    rewrite C. reflexivity.
Qed.

Lemma tag_test d :
  is_not_None (Dict.get "type" JNull d)
  && py_eq_str (Dict.get "type" JNull d) "byteArray" = true
  <-> byteArray_typed d.
Proof.
  unfold byteArray_typed, Dict.get.
  destruct (Dict.lookup "type" d) as [t|]; simpl.
  - destruct t; simpl; try (split; [discriminate | intros [= ]]).
    rewrite String.eqb_eq. split; [now intros -> | now intros [= ->]].
  - split; discriminate.
Qed.

Lemma decodable_entry_Return x :
  decodable_entry x -> exists y, decode_response x = Return y.
Proof.
  intros (d & -> & Hd).
  destruct (is_not_None (Dict.get "type" JNull d)
            && py_eq_str (Dict.get "type" JNull d) "byteArray") eqn:C.
  - apply tag_test in C. destruct (Hd C) as (v & Hv & Hs).
    rewrite (decode_response_byteArray _ _ C Hv Hs). eauto.
  - exists (JDict d). apply decode_response_untagged.
    intros Ht. apply tag_test in Ht. congruence.
Qed.

Lemma decode_response_not_object x :
  ~ is_object x -> decode_response x = Raise AttributeError.
Proof.
  destruct x; try reflexivity. intros H. exfalso. apply H. now eexists.
Qed.

(** ** The batch loop *)

Lemma batch_loop_each todo : forall done,
  batch_loop (length todo) (length done) (done ++ todo)
  = let* ys := each decode_response todo in Return (done ++ ys).
Proof.
  induction todo as [|x todo IH]; intros done; simpl.
  - now rewrite app_nil_r.
  - rewrite list_lookup_middle by reflexivity.
    destruct (decode_response x) as [y|e]; simpl; [|reflexivity].
    replace (<[length done := y]> (done ++ x :: todo))
      with ((done ++ [y]) ++ todo).
    + specialize (IH (done ++ [y])).
      rewrite length_app, Nat.add_1_r in IH. rewrite IH.
      destruct (each decode_response todo); simpl; [|reflexivity].
      now rewrite <- app_assoc.
    + rewrite <- app_assoc. simpl.
      rewrite <- (Nat.add_0_r (length done)) at 1.
      now rewrite insert_app_r.
Qed.

Lemma decode_batch_each l :
  decode_batch_response (JList l)
  = let* l' := each decode_response l in Return (JList l').
Proof.
  unfold decode_batch_response.
  change (batch_loop (length l) 0 l)
    with (batch_loop (length l) (length (@nil json)) ([] ++ l)).
  rewrite batch_loop_each.
  destruct (each decode_response l); reflexivity.
Qed.

Lemma each_Return f l l' :
  each f l = Return l' <-> Forall2 (fun x y => f x = Return y) l l'.
Proof.
  revert l'. induction l as [|x l IH]; intros l'; simpl.
  - split.
    + intros [= <-]. constructor.
    + intros H. inversion H. reflexivity.
  - split.
    + destruct (f x) as [y|] eqn:Ex; simpl; [|discriminate].
      destruct (each f l) as [ys|] eqn:El; simpl; [|discriminate].
      intros [= <-]. constructor; [assumption|]. now apply IH.
    + intros H. inversion H as [|? y ? ys Hy Hys]; subst.
      rewrite Hy. simpl. apply IH in Hys. rewrite Hys. reflexivity.
Qed.

Lemma each_app_Raise f l1 x l2 e :
  (exists l1', each f l1 = Return l1') -> f x = Raise e ->
  each f (l1 ++ x :: l2) = Raise e.
Proof.
  intros [l1' H1] Hx. revert l1' H1.
  induction l1 as [|a l1 IH]; intros l1' H1; simpl.
  - rewrite Hx. reflexivity.
  - simpl in H1. destruct (f a) as [b|]; simpl in *; [|discriminate].
    destruct (each f l1) as [bs|]; simpl in *; [|discriminate].
    rewrite (IH bs eq_refl). reflexivity.
Qed.

Lemma each_total f l :
  List.Forall (fun x => exists y, f x = Return y) l ->
  exists l', each f l = Return l'.
Proof.
  induction 1 as [|x l [y Hy] _ [l' Hl']]; simpl.
  - now exists [].
  - rewrite Hy, Hl'. simpl. eauto.
Qed.

(** * Transport Client *)

Lemma create_api_request_2xx base network container_repr endpoint request_data sent r :
  network sent (post_request base endpoint request_data) = Responded r ->
  success_status r ->
  create_api_request base network container_repr endpoint request_data sent
  = (response_json r, sent ++ [post_request base endpoint request_data]).
Proof.
  unfold post_request, success_status,
    create_api_request, try_except_M, bindM, httpx_post, lift, raise_for_status.
  intros -> [Hlo Hhi].
  apply Z.leb_le in Hlo, Hhi. rewrite Hlo, Hhi. simpl.
  unfold response_json. destruct (json_body r); [reflexivity|].
  destruct (json_failure r); reflexivity.
Qed.

Lemma on_status_error_value container_repr r :
  on_status_error container_repr (status_error_text r) r
  = Return (http_error (status_code r) (status_detail container_repr r)).
Proof.
  unfold on_status_error, status_detail, response_json.
  destruct (json_body r) as [[]|]; reflexivity.
Qed.

Lemma create_api_request_status base network container_repr endpoint request_data sent r :
  network sent (post_request base endpoint request_data) = Responded r ->
  ~ success_status r ->
  create_api_request base network container_repr endpoint request_data sent
  = (Return (http_error (status_code r) (status_detail container_repr r)),
     sent ++ [post_request base endpoint request_data]).
Proof.
  unfold post_request, success_status,
    create_api_request, try_except_M, bindM, httpx_post, lift, raise_for_status.
  intros -> Hs.
  destruct ((200 <=? status_code r) && (status_code r <=? 299)) eqn:E.
  - exfalso. apply Hs. apply andb_true_iff in E as [Hlo Hhi].
    apply Z.leb_le in Hlo, Hhi. now split.
  - simpl. now rewrite on_status_error_value.
Qed.

Lemma create_api_request_network base network container_repr endpoint request_data sent message :
  network sent (post_request base endpoint request_data)
    = PostRaises (RequestError message) ->
  create_api_request base network container_repr endpoint request_data sent
  = (Return (JDict [("error",
       JStr ("Exception raised during HTTP POST request to "
             ++ (base ++ endpoint) ++ " - " ++ message)%string)]),
     sent ++ [post_request base endpoint request_data]).
Proof.
  unfold post_request, create_api_request, try_except_M, bindM, httpx_post, ret.
  intros ->. reflexivity.
Qed.

Lemma create_api_request_log base network container_repr endpoint request_data sent :
  snd (create_api_request base network container_repr endpoint request_data sent)
  = sent ++ [post_request base endpoint request_data].
Proof.
  unfold post_request, create_api_request, try_except_M, bindM, httpx_post,
    lift, ret, raise_for_status.
  destruct (network sent _) as [r|e].
  - destruct ((200 <=? status_code r) && (status_code r <=? 299)); simpl.
    + unfold response_json. destruct (json_body r); [reflexivity|].
      destruct (json_failure r); reflexivity.
    + reflexivity.
  - destruct e; reflexivity.
Qed.

Lemma bake_recipe_2xx base network container_repr input_data recipe sent r j :
  network sent
    (post_request base "bake"
       (JDict [("input", JStr input_data);
               ("recipe", JList (convert_recipe_to_api_format recipe))]))
    = Responded r ->
  success_status r -> json_body r = Some j ->
  fst (bake_recipe base network container_repr input_data recipe sent)
  = decode_response j.
Proof.
  intros Hn Hs Hj. unfold bake_recipe, bindM.
  rewrite (create_api_request_2xx _ _ _ _ _ _ _ Hn Hs).
  unfold response_json, lift. rewrite Hj. reflexivity.
Qed.

(** C1. A 2xx response whose body is not JSON makes [create_api_request]
    raise: [response.json()] fails with [JSONDecodeError], which neither
    [except] clause names.  One request has been sent. *)
Theorem success_status_bad_body_raises :
  forall base container_repr endpoint request_data sent text,
    create_api_request base
      (answers {| status_code := 200; json_body := None;
                  json_failure := NotJSON; status_error_text := text |})
      container_repr endpoint request_data sent
    = (Raise JSONDecodeError, sent ++ [post_request base endpoint request_data]).
Proof.
  intros base container_repr endpoint request_data sent text.
  apply (create_api_request_2xx base _ container_repr endpoint request_data sent
           {| status_code := 200; json_body := None; json_failure := NotJSON;
              status_error_text := text |}).
  - reflexivity.
  - unfold success_status. simpl. lia.
Qed.

(** C7. A response with a status outside 2xx becomes the Error Result
    [{"error": "HTTP <status>: <detail>"}]: the detail is the [message]
    field of the body when the body is a JSON object that has one, and the
    text of the status error when the body is not JSON or has no such
    field.  Exactly one request is sent, and nothing is raised.  A 500
    with body [{"message": "boom"}] gives [{"error": "HTTP 500: boom"}]. *)
Theorem status_error_mapping :
  forall base network container_repr endpoint request_data sent r,
    network sent (post_request base endpoint request_data) = Responded r ->
    ~ success_status r ->
    create_api_request base network container_repr endpoint request_data sent
    = (Return (JDict [("error",
         JStr ("HTTP " ++ str_of_int (status_code r) ++ ": "
               ++ status_detail container_repr r)%string)]),
       sent ++ [post_request base endpoint request_data])
    /\ (json_body r = None ->
        status_detail container_repr r = status_error_text r)
    /\ (forall d message,
          json_body r = Some (JDict d) ->
          Dict.lookup "message" d = Some (JStr message) ->
          status_detail container_repr r = message)
    /\ (r = boom_response ->
        fst (create_api_request base network container_repr endpoint
               request_data sent)
        = Return (JDict [("error", JStr "HTTP 500: boom")])).
Proof.
  intros base network container_repr endpoint request_data sent r Hn Hs.
  pose proof (create_api_request_status _ _ container_repr _ _ _ _ Hn Hs) as E.
  split; [exact E|]. split; [|split].
  - unfold status_detail. now intros ->.
  - intros d message Hb Hm. unfold status_detail, Dict.get.
    rewrite Hb, Hm. reflexivity.
  - intros ->. rewrite E. reflexivity.
Qed.

Lemma status_error_mapping_witness :
  create_api_request "http://localhost:3000/" (answers boom_response) plain_repr
    "bake" (JDict [("input", JStr "68656c6c6f"); ("recipe", JList [JStr "From Hex"])])
    []
  = (Return (JDict [("error", JStr "HTTP 500: boom")]),
     [post_request "http://localhost:3000/" "bake"
        (JDict [("input", JStr "68656c6c6f"); ("recipe", JList [JStr "From Hex"])])]).
Proof.
  apply (status_error_mapping "http://localhost:3000/" (answers boom_response)
           plain_repr "bake"
           (JDict [("input", JStr "68656c6c6f"); ("recipe", JList [JStr "From Hex"])])
           [] boom_response).
  - reflexivity.
  - unfold success_status. simpl. lia.
Defined.

(** C8. A magic call that leaves every option out sends one request to the
    [magic] endpoint with the body
    [{input, args: {depth: 3, intensive_mode: false,
    extensive_language_support: false, crib: ""}}] and returns what
    [create_api_request] returns for it; on a 2xx answer that is the parsed
    body itself, with no decoding applied. *)
Theorem magic_defaults :
  forall base network container_repr input_data sent,
    perform_magic_operation base network container_repr input_data
      None None None None sent
    = create_api_request base network container_repr "magic"
        (default_magic_body input_data) sent
    /\ snd (perform_magic_operation base network container_repr input_data
              None None None None sent)
       = sent ++ [post_request base "magic" (default_magic_body input_data)]
    /\ (forall r j,
          network sent (post_request base "magic" (default_magic_body input_data))
            = Responded r ->
          success_status r -> json_body r = Some j ->
          fst (perform_magic_operation base network container_repr input_data
                 None None None None sent)
          = Return j).
Proof.
  intros base network container_repr input_data sent.
  assert (E : perform_magic_operation base network container_repr input_data
                None None None None sent
              = create_api_request base network container_repr "magic"
                  (default_magic_body input_data) sent) by reflexivity.
  split; [exact E|]. rewrite E. split.
  - apply create_api_request_log.
  - intros r j Hn Hs Hj.
    rewrite (create_api_request_2xx _ _ _ _ _ _ _ Hn Hs).
    unfold response_json. rewrite Hj. reflexivity.
Qed.

Lemma magic_defaults_witness :
  fst (perform_magic_operation "http://localhost:3000/"
         (answers (ok_response hello_bytes)) plain_repr "aGVsbG8="
         None None None None [])
  = Return hello_bytes.
Proof.
  apply (proj2 (proj2 (magic_defaults "http://localhost:3000/"
                         (answers (ok_response hello_bytes)) plain_repr
                         "aGVsbG8=" []))
           (ok_response hello_bytes) hello_bytes).
  - reflexivity.
  - unfold success_status. simpl. lia.
  - reflexivity.
Defined.

(** * Claims on the Response Decoder *)

(** C4, as stated, fails: a mapping tagged [byteArray] that has no
    [value] makes the decoder raise [KeyError], and one whose [value] is an
    integer beyond the index range makes it raise [OverflowError]; the
    [except] clause names neither. *)
Lemma decoder_missing_value_raises :
  byteArray_typed [("type", JStr "byteArray")] /\
  decode_response (JDict [("type", JStr "byteArray")]) = Raise (KeyError "value") /\
  byteArray_typed [("type", JStr "byteArray"); ("value", JInt (2 ^ 63))] /\
  decode_response (JDict [("type", JStr "byteArray"); ("value", JInt (2 ^ 63))])
    = Raise OverflowError.
Proof. repeat split. Qed.

(** C4 (amended). For a result mapping tagged [byteArray] that has a
    [value] which is not a bare integer, the decoder returns: when [bytes(value).decode()] gives a text, the mapping with
    [value] set to that text and [type] set to ["string"]; otherwise the
    mapping as it was.  [bake_recipe] returns that same value when the
    engine answers 2xx with such a mapping.  The engine's answer
    [{"type": "byteArray", "value": [104,101,108,108,111]}] comes back as
    [{"type": "string", "value": "hello"}]. *)
Theorem decoder_byte_array :
  (forall d v,
     byteArray_typed d -> Dict.lookup "value" d = Some v -> not_a_count v ->
     decode_response (JDict d)
     = Return match decoded_text v with
              | Some text => rewritten d text
              | None => JDict d
              end) /\
  (forall d text, exists d',
     rewritten d text = JDict d' /\
     Dict.lookup "type" d' = Some (JStr "string") /\
     Dict.lookup "value" d' = Some (JStr text)) /\
  (forall base network container_repr input_data recipe sent r d v,
     network sent
       (post_request base "bake"
          (JDict [("input", JStr input_data);
                  ("recipe", JList (convert_recipe_to_api_format recipe))]))
       = Responded r ->
     success_status r -> json_body r = Some (JDict d) ->
     byteArray_typed d -> Dict.lookup "value" d = Some v -> not_a_count v ->
     fst (bake_recipe base network container_repr input_data recipe sent)
     = Return match decoded_text v with
              | Some text => rewritten d text
              | None => JDict d
              end) /\
  decode_response hello_bytes
  = Return (JDict [("type", JStr "string"); ("value", JStr "hello")]).
Proof.
  split; [exact decode_response_byteArray|].
  split; [exact rewritten_type|].
  split; [|reflexivity].
  intros base network container_repr input_data recipe sent r d v
    Hn Hs Hj Ht Hv Hc.
  rewrite (bake_recipe_2xx _ _ _ _ _ _ _ _ Hn Hs Hj).
  now apply decode_response_byteArray.
Qed.

Lemma decoder_byte_array_witness :
  decode_response (JDict [("type", JStr "byteArray"); ("value", JList [JInt 255])])
  = Return (JDict [("type", JStr "byteArray"); ("value", JList [JInt 255])]) /\
  fst (bake_recipe "http://localhost:3000/" (answers (ok_response hello_bytes))
         plain_repr "68656c6c6f" [{| op := "From Hex"; args := None |}] [])
  = Return (JDict [("type", JStr "string"); ("value", JStr "hello")]).
Proof.
  split.
  - apply (proj1 decoder_byte_array
             [("type", JStr "byteArray"); ("value", JList [JInt 255])]
             (JList [JInt 255])).
    + reflexivity.
    + reflexivity.
    + exact I.
  - apply (proj1 (proj2 (proj2 decoder_byte_array)) "http://localhost:3000/"
             (answers (ok_response hello_bytes)) plain_repr "68656c6c6f"
             [{| op := "From Hex"; args := None |}] [] (ok_response hello_bytes)
             [("type", JStr "byteArray");
              ("value", JList [JInt 104; JInt 101; JInt 108; JInt 108; JInt 111])]
             (JList [JInt 104; JInt 101; JInt 108; JInt 108; JInt 111])).
    + reflexivity.
    + unfold success_status. simpl. lia.
    + reflexivity.
    + reflexivity.
    + reflexivity.
    + exact I.
Defined.

(** C5. The decoder returns a mapping unchanged unless its [type] is
    ["byteArray"]: a mapping without [type] (an Error Result) and a mapping
    with another tag come back as they are, and whenever the decoder
    returns something else than it was given, the input was tagged
    [byteArray].  Decoding twice is decoding once: a decoded result is
    tagged ["string"] and passes through. *)
Theorem decoder_idempotent :
  (forall d, ~ byteArray_typed d -> decode_response (JDict d) = Return (JDict d)) /\
  (forall d, Dict.lookup "type" d = None ->
     decode_response (JDict d) = Return (JDict d)) /\
  (forall x out, decode_response x = Return out -> out <> x ->
     exists d, x = JDict d /\ byteArray_typed d) /\
  (forall d text, decode_response (rewritten d text) = Return (rewritten d text)) /\
  (forall x,
     (let* once := decode_response x in decode_response once) = decode_response x).
Proof.
  split; [exact decode_response_untagged|].
  split; [|split; [|split]].
  - intros d H. apply decode_response_untagged.
    unfold byteArray_typed. rewrite H. discriminate.
  - intros x out H Hne.
    destruct (decode_response_Return _ _ H) as [[d ->] _].
    exists d. split; [reflexivity|].
    destruct (is_not_None (Dict.get "type" JNull d)
              && py_eq_str (Dict.get "type" JNull d) "byteArray") eqn:C.
    + now apply tag_test.
    + exfalso. apply Hne.
      rewrite decode_response_untagged in H; [congruence|].
      intros Ht. apply tag_test in Ht. congruence.
  - exact decode_response_rewritten.
  - exact decode_response_twice.
Qed.

Lemma decoder_idempotent_witness :
  decode_response (JDict [("error", JStr "HTTP 500: boom")])
    = Return (JDict [("error", JStr "HTTP 500: boom")]) /\
  decode_response (JDict [("type", JStr "string"); ("value", JStr "hello")])
    = Return (JDict [("type", JStr "string"); ("value", JStr "hello")]).
Proof.
  split.
  - apply (proj1 (proj2 decoder_idempotent) [("error", JStr "HTTP 500: boom")]).
    reflexivity.
  - apply (proj1 decoder_idempotent
             [("type", JStr "string"); ("value", JStr "hello")]).
    unfold byteArray_typed. simpl. discriminate.
Defined.

(** C6, as stated, fails: with element 0 a valid byte array and element 1
    a mapping tagged [byteArray] whose [value] is the integer [2^63] (a
    [value] that does not decode), the batch pass raises [OverflowError]
    instead of leaving element 1 untouched. *)
Lemma batch_integer_value_raises :
  decode_response hello_bytes
    = Return (JDict [("type", JStr "string"); ("value", JStr "hello")]) /\
  byteArray_typed [("type", JStr "byteArray"); ("value", JInt (2 ^ 63))] /\
  Dict.lookup "value" [("type", JStr "byteArray"); ("value", JInt (2 ^ 63))]
    = Some (JInt (2 ^ 63)) /\
  decoded_text (JInt (2 ^ 63)) = None /\
  decode_batch_response
    (JList [hello_bytes;
            JDict [("type", JStr "byteArray"); ("value", JInt (2 ^ 63))]])
    = Raise OverflowError.
Proof. repeat split. Qed.

(** C6 (amended). The batch pass decodes element by element: its result is
    the list of the single-result decodings, position by position, so what
    happens to one element (a failed decode included) leaves every other
    element to its own decoding.  With element 0 a valid byte array and
    element 1 a malformed one, each with a [value] that is not a bare
    integer, element 0 comes back as a string result and element 1 as it
    was, without a fault.  A response that is not a list is returned
    unchanged. *)
Theorem batch_decode_independent :
  (forall l,
     decode_batch_response (JList l)
     = let* l' := each decode_response l in Return (JList l')) /\
  (forall l l',
     decode_batch_response (JList l) = Return (JList l') <->
     Forall2 (fun x y => decode_response x = Return y) l l') /\
  (forall d0 text d1,
     valid_byte_array d0 text -> malformed_byte_array d1 ->
     decode_batch_response (JList [JDict d0; JDict d1])
     = Return (JList [rewritten d0 text; JDict d1])) /\
  (forall x, (forall l, x <> JList l) -> decode_batch_response x = Return x).
Proof.
  split; [exact decode_batch_each|]. split; [|split].
  - intros l l'. rewrite decode_batch_each, <- each_Return.
    destruct (each decode_response l); simpl.
    + split; intros [= ->]; reflexivity.
    + split; discriminate.
  - intros d0 text d1 (Ht0 & v0 & Hv0 & Hc0 & Hd0) (Ht1 & v1 & Hv1 & Hc1 & Hd1).
    rewrite decode_batch_each. simpl.
    rewrite (decode_response_byteArray _ _ Ht0 Hv0 Hc0), Hd0.
    rewrite (decode_response_byteArray _ _ Ht1 Hv1 Hc1), Hd1.
    reflexivity.
  - intros x Hx. destruct x; try reflexivity. now contradiction (Hx items).
Qed.

Lemma batch_decode_independent_witness :
  decode_batch_response
    (JList [hello_bytes;
            JDict [("type", JStr "byteArray"); ("value", JList [JInt 104; JInt 300])]])
  = Return
      (JList [JDict [("type", JStr "string"); ("value", JStr "hello")];
              JDict [("type", JStr "byteArray"); ("value", JList [JInt 104; JInt 300])]]).
Proof.
  apply (proj1 (proj2 (proj2 batch_decode_independent))
           [("type", JStr "byteArray");
            ("value", JList [JInt 104; JInt 101; JInt 108; JInt 108; JInt 111])]
           "hello"
           [("type", JStr "byteArray"); ("value", JList [JInt 104; JInt 300])]).
  - split; [reflexivity|].
    exists (JList [JInt 104; JInt 101; JInt 108; JInt 108; JInt 111]).
    split; [reflexivity|]. split; [exact I | reflexivity].
  - split; [reflexivity|].
    exists (JList [JInt 104; JInt 300]).
    split; [reflexivity|]. split; [exact I | reflexivity].
Defined.

(** C10, as stated, fails: a list whose only element is a mapping tagged
    [byteArray] without [value] makes the batch pass raise [KeyError]. *)
Lemma batch_missing_value_raises :
  List.Forall is_object [JDict [("type", JStr "byteArray")]] /\
  decode_batch_response (JList [JDict [("type", JStr "byteArray")]])
    = Raise (KeyError "value").
Proof.
  split; [|reflexivity].
  apply List.Forall_cons; [now eexists | apply List.Forall_nil].
Qed.

(** C10 (amended). The batch pass calls [get] on every element it reaches.
    It returns, with a list of the same length, for every list whose
    elements are all mappings in which a [byteArray] tag comes with a
    [value] that is not a bare integer.  It returns only
    if every element is a mapping: an element that is not one raises
    [AttributeError] once the elements before it have been decoded. *)
Theorem batch_decode_needs_mappings :
  (forall l, List.Forall decodable_entry l ->
     exists l', decode_batch_response (JList l) = Return (JList l') /\
                length l' = length l) /\
  (forall l out, decode_batch_response (JList l) = Return out ->
     List.Forall is_object l) /\
  (forall l1 x l2, List.Forall decodable_entry l1 -> ~ is_object x ->
     decode_batch_response (JList (l1 ++ x :: l2)) = Raise AttributeError).
Proof.
  split; [|split].
  - intros l Hl.
    assert (exists l', each decode_response l = Return l') as [l' E].
    { apply each_total. eapply List.Forall_impl; [|exact Hl].
      intros x. apply decodable_entry_Return. }
    exists l'. rewrite decode_batch_each, E. split; [reflexivity|].
    apply each_Return in E. symmetry. eapply Forall2_length, E.
  - intros l out. rewrite decode_batch_each.
    destruct (each decode_response l) as [l'|] eqn:E; [|discriminate].
    intros _. apply each_Return in E.
    induction E as [|x y l l' Hxy _ IH]; constructor; [|exact IH].
    now apply decode_response_Return in Hxy.
  - intros l1 x l2 Hl Hx. rewrite decode_batch_each.
    rewrite (each_app_Raise decode_response l1 x l2 AttributeError).
    + reflexivity.
    + apply each_total. eapply List.Forall_impl; [|exact Hl].
      intros y. apply decodable_entry_Return.
    + now apply decode_response_not_object.
Qed.

Lemma batch_decode_needs_mappings_witness :
  decode_batch_response (JList [hello_bytes; JStr "not a mapping"])
  = Raise AttributeError.
Proof.
  apply (proj2 (proj2 batch_decode_needs_mappings)
           [hello_bytes] (JStr "not a mapping") []).
  - apply List.Forall_cons; [|apply List.Forall_nil].
    eexists; split; [reflexivity|]. intros _.
    eexists; split; [reflexivity | exact I].
  - intros [fields H]. discriminate H.
Defined.

(** * Further properties of the Recipe Encoder *)

Lemma wire_descriptor_object o : wire_descriptor (wire_object o) = normal_form o.
Proof.
  unfold wire_object, normal_form.
  destruct (args o) as [[|x l]|]; reflexivity.
Qed.

Lemma wire_descriptor_bare o :
  no_args o = true -> wire_descriptor (JStr (op o)) = normal_form o.
Proof.
  intros H. apply no_args_arg_free in H. unfold normal_form.
  destruct H as [-> | ->]; reflexivity.
Qed.

Lemma no_args_normal o : no_args (of_normal_form (normal_form o)) = no_args o.
Proof.
  unfold no_args, of_normal_form, normal_form. simpl.
  destruct (args o) as [[|x l]|]; reflexivity.
Qed.

Lemma wire_object_normal o :
  wire_object (of_normal_form (normal_form o)) = wire_object o.
Proof.
  unfold wire_object, of_normal_form, normal_form. simpl.
  destruct (args o) as [[|x l]|]; reflexivity.
Qed.

Lemma forallb_no_args_normal recipe :
  forallb no_args (map of_normal_form (map normal_form recipe))
  = forallb no_args recipe.
Proof.
  induction recipe as [|o recipe IH]; simpl; [reflexivity|].
  now rewrite no_args_normal, IH.
Qed.

Lemma convert_normal recipe :
  convert_recipe_to_api_format (map of_normal_form (map normal_form recipe))
  = convert_recipe_to_api_format recipe.
Proof.
  destruct (forallb no_args recipe) eqn:E.
  - rewrite (convert_bare recipe E), convert_bare
      by now rewrite forallb_no_args_normal.
    rewrite !map_map. reflexivity.
  - rewrite (convert_objects recipe E), convert_objects
      by now rewrite forallb_no_args_normal.
    rewrite !map_map. apply map_ext. intros o. apply wire_object_normal.
Qed.

Lemma convert_read_back recipe :
  map wire_descriptor (convert_recipe_to_api_format recipe)
  = map normal_form recipe.
Proof.
  destruct (forallb no_args recipe) eqn:E.
  - rewrite (convert_bare recipe E), map_map.
    apply map_ext_in. intros o Ho. apply wire_descriptor_bare.
    rewrite forallb_forall in E. now apply E.
  - rewrite (convert_objects recipe E), map_map.
    apply map_ext. intros o. apply wire_descriptor_object.
Qed.

(** X1. The wire recipe has one element per descriptor, in order, and
    nothing is lost in it but the difference between absent and empty
    arguments: reading each element back gives the descriptor's name and
    its argument list. *)
Theorem encoder_read_back :
  forall recipe,
    length (convert_recipe_to_api_format recipe) = length recipe /\
    map wire_descriptor (convert_recipe_to_api_format recipe)
    = map normal_form recipe.
Proof.
  intros recipe. split; [|apply convert_read_back].
  rewrite <- (length_map wire_descriptor), convert_read_back.
  apply length_map.
Qed.

(** X2. Two recipes have the same encoding exactly when they agree on
    every name and every argument list, absent and empty arguments counted
    as the same. *)
Theorem encoder_equal_iff :
  forall r1 r2,
    convert_recipe_to_api_format r1 = convert_recipe_to_api_format r2 <->
    map normal_form r1 = map normal_form r2.
Proof.
  intros r1 r2. split; intros H.
  - rewrite <- (convert_read_back r1), <- (convert_read_back r2). now rewrite H.
  - rewrite <- (convert_normal r1), <- (convert_normal r2). now rewrite H.
Qed.

(** X3. Encoding is not compositional in general: appending a descriptor
    that bears arguments to a recipe re-encodes every earlier element as an
    object.  It distributes over concatenation when the two parts take the
    same shape decision. *)
Theorem encoder_concat :
  (forall r1 r2,
     forallb no_args r1 = forallb no_args r2 ->
     convert_recipe_to_api_format (r1 ++ r2)
     = convert_recipe_to_api_format r1 ++ convert_recipe_to_api_format r2) /\
  (forall r o,
     arg_bearing o ->
     convert_recipe_to_api_format (r ++ [o])
     = map wire_object r ++ [wire_object o]).
Proof.
  split.
  - intros r1 r2 H.
    destruct (forallb no_args r2) eqn:E2.
    + rewrite (convert_bare r1 H), (convert_bare r2 E2), convert_bare
        by (rewrite forallb_app, H, E2; reflexivity).
      apply map_app.
    + rewrite (convert_objects r1 H), (convert_objects r2 E2), convert_objects
        by (rewrite forallb_app, H, E2; reflexivity).
      apply map_app.
  - intros r o Ho. apply no_args_false_bearing in Ho.
    rewrite convert_objects.
    + apply map_app.
    + rewrite forallb_app. simpl. rewrite Ho.
      now rewrite andb_false_r.
Qed.

Lemma encoder_concat_witness :
  convert_recipe_to_api_format
    ([{| op := "From Hex"; args := None |}]
     ++ [{| op := "To Hex"; args := Some [JStr "Colon"] |}])
  = [JDict [("op", JStr "From Hex")];
     JDict [("op", JStr "To Hex"); ("args", JList [JStr "Colon"])]].
Proof.
  apply (proj2 encoder_concat [{| op := "From Hex"; args := None |}]
           {| op := "To Hex"; args := Some [JStr "Colon"] |}).
  exists (JStr "Colon"), []. reflexivity.
Defined.

(** * Further properties of the Transport Client and the tools *)

Lemma on_status_error_returns container_repr message r :
  exists j, on_status_error container_repr message r = Return j.
Proof.
  unfold on_status_error, response_json.
  destruct (json_body r) as [[]|]; simpl; eauto.
Qed.

(** What [create_api_request] gives, by the outcome of the POST. *)
Lemma create_api_request_fst base network container_repr endpoint request_data sent :
  fst (create_api_request base network container_repr endpoint request_data sent)
  = match network sent (post_request base endpoint request_data) with
    | Responded r =>
        if (200 <=? status_code r) && (status_code r <=? 299)
        then response_json r
        else on_status_error container_repr (status_error_text r) r
    | PostRaises (HTTPStatusError message r) =>
        on_status_error container_repr message r
    | PostRaises (RequestError message) =>
        Return (JDict [("error",
          JStr ("Exception raised during HTTP POST request to "
                ++ (base ++ endpoint) ++ " - " ++ message)%string)])
    | PostRaises e => Raise e
    end.
Proof.
  unfold post_request, create_api_request, try_except_M, bindM, httpx_post,
    lift, ret, raise_for_status.
  destruct (network sent _) as [r|e].
  - destruct ((200 <=? status_code r) && (status_code r <=? 299)); simpl.
    + unfold response_json. destruct (json_body r); [reflexivity|].
      destruct (json_failure r); reflexivity.
    + reflexivity.
  - destruct e; reflexivity.
Qed.

Lemma success_status_test r :
  (200 <=? status_code r) && (status_code r <=? 299) = true <-> success_status r.
Proof.
  unfold success_status. rewrite andb_true_iff, !Z.leb_le. reflexivity.
Qed.

Lemma bake_recipe_fst base network container_repr input_data recipe sent :
  fst (bake_recipe base network container_repr input_data recipe sent)
  = let* response_data :=
      fst (create_api_request base network container_repr "bake"
             (bake_body input_data recipe) sent) in
    decode_response response_data.
Proof.
  unfold bake_recipe, bake_body, bindM, lift.
  destruct (create_api_request _ _ _ _ _ _) as [[j|e] sent']; reflexivity.
Qed.

Lemma batch_bake_recipe_fst base network container_repr batch_input_data recipe sent :
  fst (batch_bake_recipe base network container_repr batch_input_data recipe sent)
  = let* response_data :=
      fst (create_api_request base network container_repr "batch/bake"
             (batch_bake_body batch_input_data recipe) sent) in
    decode_batch_response response_data.
Proof.
  unfold batch_bake_recipe, batch_bake_body, bindM, lift.
  destruct (create_api_request _ _ _ _ _ _) as [[j|e] sent']; reflexivity.
Qed.

Lemma snd_bind_lift {A B : Type} (c : M A) (f : A -> result B) sent :
  snd (bindM c (fun a => lift (f a)) sent) = snd (c sent).
Proof.
  unfold bindM, lift. destruct (c sent) as [[a|e] sent']; reflexivity.
Qed.

(** X4. [create_api_request] raises in two situations only: [httpx.post]
    raised an exception that is neither an [HTTPStatusError] nor a
    [RequestError] (that exception comes out), or the response had a 2xx
    status and [response.json()] failed on its body (the exception of
    [json()] comes out: [JSONDecodeError] for a body that is not JSON,
    [UnicodeDecodeError] for bytes that are not valid in the encoding,
    [ValueError] or [RecursionError] for a number or a nesting it cannot
    take).  In every other case it returns a value. *)
Theorem transport_raises_iff :
  forall base network container_repr endpoint request_data sent e,
    fst (create_api_request base network container_repr endpoint request_data sent)
      = Raise e <->
    (network sent (post_request base endpoint request_data) = PostRaises e /\
     transport_catches e = false) \/
    (exists r,
       network sent (post_request base endpoint request_data) = Responded r /\
       success_status r /\ json_body r = None /\
       e = json_exception (json_failure r)).
Proof.
  intros base network container_repr endpoint request_data sent e.
  rewrite create_api_request_fst.
  destruct (network sent _) as [r|e'].
  - destruct ((200 <=? status_code r) && (status_code r <=? 299)) eqn:S.
    + apply success_status_test in S. unfold response_json.
      destruct (json_body r) as [j|] eqn:B; split.
      * discriminate.
      * intros [[H _] | (r' & [= <-] & _ & H & _)]; congruence.
      * intros [= <-]. right. exists r. auto.
      * intros [[H _] | (r' & [= <-] & _ & _ & ->)];
          [discriminate H | reflexivity].
    + destruct (on_status_error_returns container_repr (status_error_text r) r)
        as [j ->].
      split; [discriminate|].
      intros [[H _] | (r' & [= <-] & H & _)]; [discriminate|].
      apply success_status_test in H. congruence.
  - destruct e'; simpl;
      try (split;
           [ intros [= <-]; left; split; reflexivity
           | intros [[[= <-] _] | (r' & H & _)]; [reflexivity | discriminate] ]).
    + destruct (on_status_error_returns container_repr message response) as [j ->].
      split; [discriminate|].
      intros [[[= <-] H] | (r' & H & _)]; discriminate.
    + split; [discriminate|].
      intros [[[= <-] H] | (r' & H & _)]; discriminate.
Qed.

Lemma transport_raises_iff_witness :
  fst (create_api_request "http://localhost:3000/"
         (answers {| status_code := 200; json_body := None;
                     json_failure := BadEncoding; status_error_text := "" |})
         plain_repr "bake" JNull [])
  = Raise UnicodeDecodeError.
Proof.
  apply (proj2 (transport_raises_iff "http://localhost:3000/"
           (answers {| status_code := 200; json_body := None;
                       json_failure := BadEncoding; status_error_text := "" |})
           plain_repr "bake" JNull [] UnicodeDecodeError)).
  right.
  exists {| status_code := 200; json_body := None;
            json_failure := BadEncoding; status_error_text := "" |}.
  split; [reflexivity|]. split; [unfold success_status; simpl; lia|].
  split; reflexivity.
Defined.

(** X5. When [httpx.post] fails with a [RequestError] (connection refused,
    timeout, ...), [create_api_request] returns the Error Result
    [{"error": "Exception raised during HTTP POST request to <url> - <text>"}]
    after that single attempt. *)
Theorem network_failure_mapping :
  forall base network container_repr endpoint request_data sent message,
    network sent (post_request base endpoint request_data)
      = PostRaises (RequestError message) ->
    create_api_request base network container_repr endpoint request_data sent
    = (Return (JDict [("error",
         JStr ("Exception raised during HTTP POST request to "
               ++ (base ++ endpoint) ++ " - " ++ message)%string)]),
       sent ++ [post_request base endpoint request_data]).
Proof.
  intros. now apply create_api_request_network.
Qed.

Lemma network_failure_mapping_witness :
  fst (create_api_request "http://localhost:3000/" (unreachable "timed out")
         plain_repr "magic" (default_magic_body "aGVsbG8=") [])
  = Return (JDict [("error",
      JStr "Exception raised during HTTP POST request to http://localhost:3000/magic - timed out")]).
Proof.
  rewrite (network_failure_mapping "http://localhost:3000/"
             (unreachable "timed out") plain_repr "magic"
             (default_magic_body "aGVsbG8=") [] "timed out").
  - reflexivity.
  - reflexivity.
Defined.

(** X6. On a 2xx response whose body is JSON, [create_api_request] returns
    the parsed body as it is, whatever its shape, after one request. *)
Theorem success_returns_body :
  forall base network container_repr endpoint request_data sent r j,
    network sent (post_request base endpoint request_data) = Responded r ->
    success_status r -> json_body r = Some j ->
    create_api_request base network container_repr endpoint request_data sent
    = (Return j, sent ++ [post_request base endpoint request_data]).
Proof.
  intros base network container_repr endpoint request_data sent r j Hn Hs Hj.
  rewrite (create_api_request_2xx _ _ _ _ _ _ _ Hn Hs).
  unfold response_json. now rewrite Hj.
Qed.

Lemma success_returns_body_witness :
  fst (create_api_request "http://localhost:3000/"
         (answers (ok_response (JList [JInt 1; JNull]))) plain_repr
         "bake" JNull [])
  = Return (JList [JInt 1; JNull]).
Proof.
  rewrite (success_returns_body "http://localhost:3000/"
             (answers (ok_response (JList [JInt 1; JNull]))) plain_repr
             "bake" JNull [] (ok_response (JList [JInt 1; JNull]))
             (JList [JInt 1; JNull])).
  - reflexivity.
  - reflexivity.
  - unfold success_status. simpl. lia.
  - reflexivity.
Defined.

(** X7. Each tool calls [httpx.post] exactly once, whatever the outcome
    (a result, an Error Result or an exception): to [<base>bake] with
    [{input, recipe}], to [<base>batch/bake] with [{input: [...], recipe}],
    to [<base>magic] with [{input, args}] in which an option left out has
    its default; always with the two JSON headers and a timeout of 30. *)
Theorem tools_send_one_request :
  forall base network container_repr sent,
    (forall input_data recipe,
       snd (bake_recipe base network container_repr input_data recipe sent)
       = sent ++ [post_request base "bake" (bake_body input_data recipe)]) /\
    (forall batch_input_data recipe,
       snd (batch_bake_recipe base network container_repr batch_input_data
              recipe sent)
       = sent ++ [post_request base "batch/bake"
                    (batch_bake_body batch_input_data recipe)]) /\
    (forall input_data depth intensive_mode extensive_language_support crib_str,
       snd (perform_magic_operation base network container_repr input_data
              depth intensive_mode extensive_language_support crib_str sent)
       = sent ++ [post_request base "magic"
                    (magic_body input_data depth intensive_mode
                       extensive_language_support crib_str)]).
Proof.
  intros base network container_repr sent. split; [|split].
  - intros input_data recipe. unfold bake_recipe.
    rewrite snd_bind_lift. apply create_api_request_log.
  - intros batch_input_data recipe. unfold batch_bake_recipe.
    rewrite snd_bind_lift. apply create_api_request_log.
  - intros. apply create_api_request_log.
Qed.

(** X8. A status error whose body is JSON but gives no message (not an
    object, or an object without a [message] field) is reported with the
    text of the status error; a [message] that is not a string is printed
    as Python prints it: [None], [True] or [False], the decimal digits of
    an integer, and for a float, a list or a dict its [repr]. *)
Theorem status_error_detail :
  forall base network container_repr endpoint request_data sent r j,
    network sent (post_request base endpoint request_data) = Responded r ->
    ~ success_status r -> json_body r = Some j ->
    ((forall d, j = JDict d -> Dict.lookup "message" d = None) ->
     fst (create_api_request base network container_repr endpoint request_data sent)
     = Return (JDict [("error",
         JStr ("HTTP " ++ str_of_int (status_code r) ++ ": "
               ++ status_error_text r)%string)])) /\
    (forall d m,
       j = JDict d -> Dict.lookup "message" d = Some m ->
       fst (create_api_request base network container_repr endpoint request_data sent)
       = Return (JDict [("error",
           JStr ("HTTP " ++ str_of_int (status_code r) ++ ": "
                 ++ match m with
                    | JStr s => s
                    | JInt n => str_of_int n
                    | JBool true => "True"
                    | JBool false => "False"
                    | JNull => "None"
                    | JFloat _ | JList _ | JDict _ => container_repr m
                    end)%string)])).
Proof.
  intros base network container_repr endpoint request_data sent r j Hn Hs Hj.
  rewrite (create_api_request_status _ _ container_repr _ _ _ _ Hn Hs).
  unfold http_error, status_detail, Dict.get. rewrite Hj. simpl. split.
  - intros H. destruct j; try reflexivity. now rewrite (H fields eq_refl).
  - intros d m -> Hm. rewrite Hm. destruct m as [|[]| | | | |]; reflexivity.
Qed.

Lemma status_error_detail_witness :
  fst (create_api_request "http://localhost:3000/"
         (answers {| status_code := 404; json_body := Some (JList []);
                     json_failure := NotJSON;
                     status_error_text := "Client error '404 Not Found'" |})
         plain_repr "bake" JNull [])
  = Return (JDict [("error", JStr "HTTP 404: Client error '404 Not Found'")]).
Proof.
  apply (proj1 (status_error_detail "http://localhost:3000/"
           (answers {| status_code := 404; json_body := Some (JList []);
                       json_failure := NotJSON;
                       status_error_text := "Client error '404 Not Found'" |})
           plain_repr "bake" JNull []
           {| status_code := 404; json_body := Some (JList []);
              json_failure := NotJSON;
              status_error_text := "Client error '404 Not Found'" |}
           (JList [])
           eq_refl
           ltac:(unfold success_status; simpl; lia)
           eq_refl)).
  intros d H. discriminate H.
Defined.

(** X9. A failed exchange reaches the caller of the bake tools as the
    Error Result itself: when [create_api_request] returns
    [{"error": <text>}], [bake_recipe] and [batch_bake_recipe] return that
    same mapping, the decoding step leaving it alone. *)
Theorem tools_pass_error_result :
  forall base network container_repr sent message,
    (forall input_data recipe,
       fst (create_api_request base network container_repr "bake"
              (bake_body input_data recipe) sent)
         = Return (JDict [("error", JStr message)]) ->
       fst (bake_recipe base network container_repr input_data recipe sent)
         = Return (JDict [("error", JStr message)])) /\
    (forall batch_input_data recipe,
       fst (create_api_request base network container_repr "batch/bake"
              (batch_bake_body batch_input_data recipe) sent)
         = Return (JDict [("error", JStr message)]) ->
       fst (batch_bake_recipe base network container_repr batch_input_data
              recipe sent)
         = Return (JDict [("error", JStr message)])).
Proof.
  intros base network container_repr sent message. split.
  - intros input_data recipe H. rewrite bake_recipe_fst, H. reflexivity.
  - intros batch_input_data recipe H. rewrite batch_bake_recipe_fst, H.
    reflexivity.
Qed.

Lemma tools_pass_error_result_witness :
  fst (bake_recipe "http://localhost:3000/" (unreachable "timed out") plain_repr
         "68656c6c6f" [{| op := "From Hex"; args := None |}] [])
  = Return (JDict [("error",
      JStr "Exception raised during HTTP POST request to http://localhost:3000/bake - timed out")]).
Proof.
  apply (proj1 (tools_pass_error_result "http://localhost:3000/"
                  (unreachable "timed out") plain_repr []
                  "Exception raised during HTTP POST request to http://localhost:3000/bake - timed out")
           "68656c6c6f" [{| op := "From Hex"; args := None |}]).
  reflexivity.
Defined.

(** X10. [bake_recipe] expects a mapping: when the engine answers 2xx with
    JSON that is not an object (a list, a string, a number, [null]), the
    call raises [AttributeError] instead of returning. *)
Theorem bake_needs_mapping :
  forall base network container_repr input_data recipe sent r j,
    network sent (post_request base "bake" (bake_body input_data recipe))
      = Responded r ->
    success_status r -> json_body r = Some j -> ~ is_object j ->
    fst (bake_recipe base network container_repr input_data recipe sent)
    = Raise AttributeError.
Proof.
  intros base network container_repr input_data recipe sent r j Hn Hs Hj Ho.
  rewrite bake_recipe_fst, (create_api_request_2xx _ _ _ _ _ _ _ Hn Hs).
  unfold response_json. rewrite Hj. simpl.
  now apply decode_response_not_object.
Qed.

Lemma bake_needs_mapping_witness :
  fst (bake_recipe "http://localhost:3000/"
         (answers (ok_response (JList [hello_bytes]))) plain_repr
         "68656c6c6f" [{| op := "From Hex"; args := None |}] [])
  = Raise AttributeError.
Proof.
  apply (bake_needs_mapping "http://localhost:3000/"
           (answers (ok_response (JList [hello_bytes]))) plain_repr
           "68656c6c6f" [{| op := "From Hex"; args := None |}] []
           (ok_response (JList [hello_bytes])) (JList [hello_bytes])).
  - reflexivity.
  - unfold success_status. simpl. lia.
  - reflexivity.
  - intros [fields H]. discriminate H.
Defined.

(** X11. [batch_bake_recipe] on a 2xx answer: a JSON list comes back
    decoded element by element, of the same length (the empty list as the
    empty list); any other JSON value comes back as it is, a mapping tagged
    [byteArray] included: the batch tool never decodes a lone mapping. *)
Theorem batch_bake_on_success :
  forall base network container_repr batch_input_data recipe sent r j,
    network sent
      (post_request base "batch/bake" (batch_bake_body batch_input_data recipe))
      = Responded r ->
    success_status r -> json_body r = Some j ->
    (forall l, j = JList l ->
       fst (batch_bake_recipe base network container_repr batch_input_data
              recipe sent)
       = let* l' := each decode_response l in Return (JList l')) /\
    (forall l out, j = JList l ->
       fst (batch_bake_recipe base network container_repr batch_input_data
              recipe sent) = Return out ->
       exists l', out = JList l' /\ length l' = length l) /\
    ((forall l, j <> JList l) ->
     fst (batch_bake_recipe base network container_repr batch_input_data
            recipe sent) = Return j).
Proof.
  intros base network container_repr batch_input_data recipe sent r j Hn Hs Hj.
  rewrite batch_bake_recipe_fst, (create_api_request_2xx _ _ _ _ _ _ _ Hn Hs).
  unfold response_json. rewrite Hj. simpl. split; [|split].
  - intros l ->. apply decode_batch_each.
  - intros l out ->. rewrite decode_batch_each.
    destruct (each decode_response l) as [l'|] eqn:E; [|discriminate].
    intros [= <-]. exists l'. split; [reflexivity|].
    apply each_Return in E. symmetry. eapply Forall2_length, E.
  - intros H. destruct j; try reflexivity. now contradiction (H items).
Qed.

Lemma batch_bake_on_success_witness :
  fst (batch_bake_recipe "http://localhost:3000/"
         (answers (ok_response hello_bytes)) plain_repr ["68656c6c6f"]
         [{| op := "From Hex"; args := None |}] [])
  = Return hello_bytes.
Proof.
  apply (proj2 (proj2 (batch_bake_on_success "http://localhost:3000/"
           (answers (ok_response hello_bytes)) plain_repr ["68656c6c6f"]
           [{| op := "From Hex"; args := None |}] []
           (ok_response hello_bytes) hello_bytes
           eq_refl
           ltac:(unfold success_status; simpl; lia)
           eq_refl))).
  intros l H. discriminate H.
Defined.

(** X12. [cyberchef_api_url] is the value of [CYBERCHEF_API_URL] whenever
    the variable is set, the empty string included, and the local default
    only when it is unset; the request URL is that base followed by the
    endpoint with nothing put between them. *)
Theorem request_url_is_base_then_endpoint :
  forall env_value network container_repr endpoint request_data sent,
    map url
      (snd (create_api_request (configured_api_url env_value) network
              container_repr endpoint request_data sent))
    = map url sent
      ++ [(match env_value with
           | None => "http://localhost:3000/" ++ endpoint
           | Some "" => endpoint
           | Some value => value ++ endpoint
           end)%string].
Proof.
  intros env_value network container_repr endpoint request_data sent.
  rewrite create_api_request_log, map_app. simpl.
  destruct env_value as [[|c value]|]; reflexivity.
Qed.

(** * Further properties of the Response Decoder *)

Lemma dict_set_keys k v d v0 :
  Dict.lookup k d = Some v0 -> map fst (Dict.set k v d) = map fst d.
Proof.
  induction d as [|[k' v'] d IH]; simpl; [discriminate|].
  destruct (String.eqb k k'); [reflexivity|].
  intros H. simpl. now rewrite IH.
Qed.

Lemma decode_in_place_Return_value d out :
  decode_in_place (JDict d) = Return out ->
  exists v text,
    Dict.lookup "value" d = Some v /\ decoded_text v = Some text /\
    out = rewritten d text.
Proof.
  unfold decode_in_place, py_getitem, bytes_decode.
  destruct (Dict.lookup "value" d) as [v|]; simpl; [|discriminate].
  destruct (py_bytes v) as [raw|] eqn:Eraw; simpl; [|discriminate].
  destruct (utf8_valid raw) eqn:Evalid; simpl; [|discriminate].
  intros [= <-]. exists v, (string_of_bytes raw).
  split; [reflexivity|]. split; [|reflexivity].
  unfold decoded_text. now rewrite Eraw, Evalid.
Qed.

(** The two ways [decode_response] returns on a mapping. *)
Lemma decode_response_cases d out :
  decode_response (JDict d) = Return out ->
  out = JDict d \/
  (byteArray_typed d /\
   exists v text, Dict.lookup "value" d = Some v /\
                  decoded_text v = Some text /\ out = rewritten d text).
Proof.
  destruct (is_not_None (Dict.get "type" JNull d)
            && py_eq_str (Dict.get "type" JNull d) "byteArray") eqn:C.
  - apply tag_test in C. rewrite (decode_response_tagged _ C).
    unfold try_except.
    destruct (decode_in_place (JDict d)) as [a|e] eqn:E.
    + intros [= <-]. right. split; [exact C|].
      now apply decode_in_place_Return_value.
    + destruct (_ || _); [intros [= <-]; now left | discriminate].
  - rewrite decode_response_untagged.
    + intros [= <-]. now left.
    + intros Ht. apply tag_test in Ht. congruence.
Qed.

(** X13. Decoding touches the [type] and [value] fields only: the result
    has the same keys in the same order, and every other field keeps its
    value. *)
Theorem decoder_frame :
  forall d d',
    decode_response (JDict d) = Return (JDict d') ->
    map fst d' = map fst d /\
    (forall k, k <> "type" -> k <> "value" ->
       Dict.lookup k d' = Dict.lookup k d).
Proof.
  intros d d' H.
  apply decode_response_cases in H as [[= ->] | (Ht & v & text & Hv & _ & H)].
  - split; reflexivity.
  - unfold rewritten in H. injection H as ->. split.
    + rewrite (dict_set_keys "type" _ _ (JStr "byteArray")).
      * now rewrite (dict_set_keys "value" _ _ v).
      * rewrite dict_lookup_set. exact Ht.
    + intros k Hk1 Hk2. rewrite !dict_lookup_set.
      apply String.eqb_neq in Hk1, Hk2. now rewrite Hk1, Hk2.
Qed.

Lemma decoder_frame_witness :
  Dict.lookup "ok" [("type", JStr "string"); ("ok", JBool true);
                    ("value", JStr "hi")]
  = Dict.lookup "ok" [("type", JStr "byteArray"); ("ok", JBool true);
                      ("value", JList [JInt 104; JInt 105])].
Proof.
  apply (proj2 (decoder_frame
           [("type", JStr "byteArray"); ("ok", JBool true);
            ("value", JList [JInt 104; JInt 105])]
           [("type", JStr "string"); ("ok", JBool true); ("value", JStr "hi")]
           eq_refl) "ok").
  - discriminate.
  - discriminate.
Defined.

(** X14. What the decoder returns for a mapping is either the mapping
    itself or a mapping tagged ["string"] whose [value] is a text; so a
    returned mapping that is still tagged [byteArray] is the input,
    untouched. *)
Theorem decoder_outcome :
  forall d d',
    decode_response (JDict d) = Return (JDict d') ->
    (d' = d \/
     (byteArray_typed d /\
      Dict.lookup "type" d' = Some (JStr "string") /\
      exists text, Dict.lookup "value" d' = Some (JStr text))) /\
    (byteArray_typed d' -> d' = d).
Proof.
  intros d d' H.
  apply decode_response_cases in H as [[= ->] | (Ht & v & text & _ & _ & H)].
  - split; [now left | reflexivity].
  - destruct (rewritten_type d text) as (d2 & E & Htype & Hvalue).
    rewrite E in H. injection H as ->. split.
    + right. split; [exact Ht|]. split; [exact Htype | now exists text].
    + unfold byteArray_typed. rewrite Htype. discriminate.
Qed.

Lemma decoder_outcome_witness :
  [("type", JStr "byteArray"); ("value", JStr "68656c6c6f")]
  = [("type", JStr "byteArray"); ("value", JStr "68656c6c6f")].
Proof.
  apply (proj2 (decoder_outcome
           [("type", JStr "byteArray"); ("value", JStr "68656c6c6f")]
           [("type", JStr "byteArray"); ("value", JStr "68656c6c6f")]
           eq_refl)).
  reflexivity.
Defined.

Lemma byte_of_item_bad x : bad_item x -> exists e, byte_of_item x = Raise e.
Proof.
  destruct x as [|b|n|lit|s|items|d]; simpl; intros H; eauto; [contradiction|].
  replace ((0 <=? n) && (n <? 256)) with false; [eauto|].
  symmetry. apply andb_false_iff.
  destruct H; [left; apply Z.leb_gt | right; apply Z.ltb_ge]; lia.
Qed.

Lemma bytes_of_items_bad items :
  List.Exists bad_item items -> exists e, bytes_of_items items = Raise e.
Proof.
  induction 1 as [x items Hx | x items _ [e IH]]; simpl.
  - destruct (byte_of_item_bad x Hx) as [e ->]. simpl. eauto.
  - destruct (byte_of_item x); simpl; [|eauto]. rewrite IH. simpl. eauto.
Qed.

(** X15. A byte array with an element outside [range(0, 256)], or with an
    element that is not an integer, is never decoded: the result comes back
    unchanged, whatever the other elements are. *)
Theorem bad_element_leaves_result :
  forall d items,
    byteArray_typed d -> Dict.lookup "value" d = Some (JList items) ->
    List.Exists bad_item items ->
    decode_response (JDict d) = Return (JDict d).
Proof.
  intros d items Ht Hv Hbad.
  rewrite (decode_response_byteArray d (JList items) Ht Hv I).
  unfold decoded_text. simpl.
  destruct (bytes_of_items_bad items Hbad) as [e ->]. reflexivity.
Qed.

Lemma bad_element_leaves_result_witness :
  decode_response
    (JDict [("type", JStr "byteArray");
            ("value", JList [JInt 104; JInt 256; JInt 105])])
  = Return
      (JDict [("type", JStr "byteArray");
              ("value", JList [JInt 104; JInt 256; JInt 105])]).
Proof.
  apply (bad_element_leaves_result
           [("type", JStr "byteArray");
            ("value", JList [JInt 104; JInt 256; JInt 105])]
           [JInt 104; JInt 256; JInt 105]).
  - reflexivity.
  - reflexivity.
  - apply List.Exists_cons_tl, List.Exists_cons_hd. simpl. lia.
Defined.

Lemma bytes_of_items_ascii items :
  List.Forall ascii_item items ->
  exists raw, bytes_of_items items = Return raw /\
              List.Forall (fun n => 0 <= n <= 127) raw /\
              length raw = length items.
Proof.
  induction 1 as [|x items (n & -> & Hn) _ (raw & E & Hraw & Hlen)]; simpl.
  - exists []. repeat split. constructor.
  - replace ((0 <=? n) && (n <? 256)) with true
      by (symmetry; apply andb_true_iff; split;
          [apply Z.leb_le | apply Z.ltb_lt]; lia).
    simpl. rewrite E. simpl. exists (n :: raw). repeat split.
    + now constructor.
    + simpl. now rewrite Hlen.
Qed.

Lemma utf8_valid_ascii raw :
  List.Forall (fun n => 0 <= n <= 127) raw -> utf8_valid raw = true.
Proof.
  induction 1 as [|n raw Hn _ IH]; [reflexivity|].
  cbn [utf8_valid].
  replace (between 0 n 127) with true; [exact IH|].
  symmetry. unfold between. apply andb_true_iff. split; apply Z.leb_le; lia.
Qed.

Lemma string_of_bytes_length raw :
  String.length (string_of_bytes raw) = length raw.
Proof.
  unfold string_of_bytes. induction raw as [|n raw IH]; simpl; [reflexivity|].
  now rewrite IH.
Qed.

(** X16. A byte array made of bytes of the ASCII range always decodes: the
    result is rewritten to a string result whose text has one character
    per byte. *)
Theorem ascii_bytes_decode :
  forall d items,
    byteArray_typed d -> Dict.lookup "value" d = Some (JList items) ->
    List.Forall ascii_item items ->
    exists text,
      decode_response (JDict d) = Return (rewritten d text) /\
      String.length text = length items.
Proof.
  intros d items Ht Hv Hascii.
  destruct (bytes_of_items_ascii items Hascii) as (raw & E & Hraw & Hlen).
  exists (string_of_bytes raw). split.
  - rewrite (decode_response_byteArray d (JList items) Ht Hv I).
    unfold decoded_text. simpl. rewrite E, (utf8_valid_ascii raw Hraw).
    reflexivity.
  - now rewrite string_of_bytes_length.
Qed.

Lemma ascii_bytes_decode_witness :
  exists text,
    decode_response hello_bytes
    = Return (rewritten
                [("type", JStr "byteArray");
                 ("value", JList [JInt 104; JInt 101; JInt 108; JInt 108; JInt 111])]
                text) /\
    String.length text = 5%nat.
Proof.
  apply (ascii_bytes_decode
           [("type", JStr "byteArray");
            ("value", JList [JInt 104; JInt 101; JInt 108; JInt 108; JInt 111])]
           [JInt 104; JInt 101; JInt 108; JInt 108; JInt 111]).
  - reflexivity.
  - reflexivity.
  - repeat (apply List.Forall_cons; [eexists; split; [reflexivity | lia]|]).
    apply List.Forall_nil.
Defined.

Lemma decode_response_fixed x y :
  decode_response x = Return y -> decode_response y = Return y.
Proof.
  intros H. pose proof (decode_response_twice x) as T.
  rewrite H in T. exact T.
Qed.

Lemma each_decode_fixed l l' :
  each decode_response l = Return l' -> each decode_response l' = Return l'.
Proof.
  rewrite !each_Return.
  induction 1 as [|x y l l' Hxy _ IH]; constructor; [|exact IH].
  now apply decode_response_fixed in Hxy.
Qed.

(** X17. The batch pass is idempotent: running it on its own result
    changes nothing, for a list as for any other response. *)
Theorem batch_decode_idempotent :
  forall x,
    (let* once := decode_batch_response x in decode_batch_response once)
    = decode_batch_response x.
Proof.
  intros x. destruct x as [| | | | |l|]; try reflexivity.
  rewrite decode_batch_each.
  destruct (each decode_response l) as [l'|e] eqn:E; [|reflexivity].
  cbn [bind]. rewrite decode_batch_each, (each_decode_fixed _ _ E). reflexivity.
Qed.

(** X18. One element that makes the decoding step raise makes the whole
    batch call raise that exception: the elements before it were decoded,
    the elements after it are never looked at, and no list is returned. *)
Theorem batch_first_failure :
  forall l1 x l2 e,
    List.Forall (fun y => exists z, decode_response y = Return z) l1 ->
    decode_response x = Raise e ->
    decode_batch_response (JList (l1 ++ x :: l2)) = Raise e.
Proof.
  intros l1 x l2 e Hl Hx. rewrite decode_batch_each.
  rewrite (each_app_Raise decode_response l1 x l2 e).
  - reflexivity.
  - now apply each_total.
  - exact Hx.
Qed.

Lemma batch_first_failure_witness :
  decode_batch_response
    (JList ([hello_bytes] ++ JDict [("type", JStr "byteArray")] :: [JNull]))
  = Raise (KeyError "value").
Proof.
  apply (batch_first_failure [hello_bytes] (JDict [("type", JStr "byteArray")])
           [JNull] (KeyError "value")).
  - apply List.Forall_cons; [|apply List.Forall_nil].
    eexists. reflexivity.
  - reflexivity.
Defined.

Lemma between_spec lo b hi : between lo b hi = true <-> lo <= b <= hi.
Proof. unfold between. rewrite andb_true_iff, !Z.leb_le. reflexivity. Qed.

Lemma cont_spec b : cont b = true <-> 128 <= b <= 191.
Proof. unfold cont. rewrite andb_true_iff, !Z.leb_le. reflexivity. Qed.

(** Every byte of a well-formed sequence is a lead byte or a continuation
    byte. *)
Lemma utf8_valid_bytes n : forall raw,
  (length raw <= n)%nat -> utf8_valid raw = true ->
  List.Forall (fun b => 0 <= b <= 191 \/ 194 <= b <= 244) raw.
Proof.
  induction n as [|n IH]; intros [|b0 r] Hlen H; try constructor;
    simpl in Hlen; try lia.
  - cbn [utf8_valid] in H.
    destruct (between 0 b0 127) eqn:E1; [apply between_spec in E1; lia|].
    destruct (between 194 b0 223) eqn:E2; [apply between_spec in E2; lia|].
    destruct (between 224 b0 239) eqn:E3; [apply between_spec in E3; lia|].
    destruct (between 240 b0 244) eqn:E4; [apply between_spec in E4; lia|].
    discriminate.
  - cbn [utf8_valid] in H.
    destruct (between 0 b0 127) eqn:E1; [apply IH; [lia | exact H]|].
    destruct (between 194 b0 223) eqn:E2.
    { destruct r as [|b1 r1]; [discriminate|]. simpl in Hlen.
      apply andb_true_iff in H as [H1 H]. apply cont_spec in H1.
      constructor; [lia|]. apply IH; [lia | exact H]. }
    destruct (between 224 b0 239) eqn:E3.
    { destruct r as [|b1 [|b2 r2]]; try discriminate. simpl in Hlen.
      apply andb_true_iff in H as [H H3].
      apply andb_true_iff in H as [H1 H2]. apply cont_spec in H2.
      assert (128 <= b1 <= 191).
      { destruct (b0 =? 224); [apply between_spec in H1; lia|].
        destruct (b0 =? 237); [apply between_spec in H1; lia|].
        now apply cont_spec in H1. }
      repeat (constructor; [lia|]). apply IH; [lia | exact H3]. }
    destruct (between 240 b0 244) eqn:E4; [|discriminate].
    destruct r as [|b1 [|b2 [|b3 r3]]]; try discriminate. simpl in Hlen.
    apply andb_true_iff in H as [H H4].
    apply andb_true_iff in H as [H H3]. apply cont_spec in H3.
    apply andb_true_iff in H as [H1 H2]. apply cont_spec in H2.
    assert (128 <= b1 <= 191).
    { destruct (b0 =? 240); [apply between_spec in H1; lia|].
      destruct (b0 =? 244); [apply between_spec in H1; lia|].
      now apply cont_spec in H1. }
    repeat (constructor; [lia|]). apply IH; [lia | exact H4].
Qed.

Lemma bytes_of_items_In items : forall raw b,
  bytes_of_items items = Return raw -> In (JInt b) items -> In b raw.
Proof.
  induction items as [|x items IH]; intros raw b H Hin; [contradiction|].
  simpl in H.
  destruct (byte_of_item x) as [b0|] eqn:Ex; simpl in H; [|discriminate].
  destruct (bytes_of_items items) as [rest|]; simpl in H; [|discriminate].
  injection H as <-. destruct Hin as [-> | Hin].
  - left. simpl in Ex.
    destruct ((0 <=? b) && (b <? 256)); [now injection Ex | discriminate].
  - right. now apply (IH rest).
Qed.

(** X19. A byte array that contains, anywhere, one of the byte values that
    no UTF-8 text contains ([0xC0], [0xC1], [0xF5]-[0xFF]) is never
    decoded: the result comes back unchanged. *)
Theorem non_utf8_byte_leaves_result :
  forall d items b,
    byteArray_typed d -> Dict.lookup "value" d = Some (JList items) ->
    In (JInt b) items -> never_in_utf8 b ->
    decode_response (JDict d) = Return (JDict d).
Proof.
  intros d items b Ht Hv Hin Hb.
  rewrite (decode_response_byteArray d (JList items) Ht Hv I).
  unfold decoded_text. simpl.
  destruct (bytes_of_items items) as [raw|] eqn:E; [|reflexivity].
  destruct (utf8_valid raw) eqn:V; [|reflexivity].
  exfalso.
  pose proof (utf8_valid_bytes (length raw) raw (le_n _) V) as F.
  rewrite List.Forall_forall in F.
  specialize (F b (bytes_of_items_In _ _ _ E Hin)).
  unfold never_in_utf8 in Hb. lia.
Qed.

Lemma non_utf8_byte_leaves_result_witness :
  decode_response
    (JDict [("type", JStr "byteArray"); ("value", JList [JInt 104; JInt 255])])
  = Return
      (JDict [("type", JStr "byteArray"); ("value", JList [JInt 104; JInt 255])]).
Proof.
  apply (non_utf8_byte_leaves_result
           [("type", JStr "byteArray"); ("value", JList [JInt 104; JInt 255])]
           [JInt 104; JInt 255] 255).
  - reflexivity.
  - reflexivity.
  - right. left. reflexivity.
  - right. right. lia.
Defined.

Lemma failed_exchange_error base network container_repr endpoint request_data sent :
  failed_exchange (network sent (post_request base endpoint request_data)) ->
  exists text,
    fst (create_api_request base network container_repr endpoint request_data sent)
    = Return (JDict [("error", JStr text)]).
Proof.
  rewrite create_api_request_fst. unfold failed_exchange.
  assert (Hs : forall message r, exists text,
             on_status_error container_repr message r
             = Return (JDict [("error", JStr text)])).
  { intros message r. unfold on_status_error, response_json, http_error.
    destruct (json_body r) as [[]|]; simpl; eauto. }
  destruct (network sent _) as [r|e].
  - intros H.
    destruct ((200 <=? status_code r) && (status_code r <=? 299)) eqn:S.
    + apply success_status_test in S. contradiction.
    + apply Hs.
  - destruct e; simpl; try discriminate; intros _; [apply Hs | eauto].
Qed.

(** X20. A failed exchange (a response with a status outside 2xx, or an
    [httpx] status or request error such as a timeout) never makes a tool
    raise:
    [create_api_request], [bake_recipe], [batch_bake_recipe] and
    [perform_magic_operation] each return a mapping with the single field
    [error] holding a text. *)
Theorem tools_report_failed_exchange :
  forall base network container_repr sent,
    (forall endpoint request_data,
       failed_exchange (network sent (post_request base endpoint request_data)) ->
       exists text,
         fst (create_api_request base network container_repr endpoint
                request_data sent)
         = Return (JDict [("error", JStr text)])) /\
    (forall input_data recipe,
       failed_exchange
         (network sent (post_request base "bake" (bake_body input_data recipe))) ->
       exists text,
         fst (bake_recipe base network container_repr input_data recipe sent)
         = Return (JDict [("error", JStr text)])) /\
    (forall batch_input_data recipe,
       failed_exchange
         (network sent
            (post_request base "batch/bake"
               (batch_bake_body batch_input_data recipe))) ->
       exists text,
         fst (batch_bake_recipe base network container_repr batch_input_data
                recipe sent)
         = Return (JDict [("error", JStr text)])) /\
    (forall input_data depth intensive_mode extensive_language_support crib_str,
       failed_exchange
         (network sent
            (post_request base "magic"
               (magic_body input_data depth intensive_mode
                  extensive_language_support crib_str))) ->
       exists text,
         fst (perform_magic_operation base network container_repr input_data
                depth intensive_mode extensive_language_support crib_str sent)
         = Return (JDict [("error", JStr text)])).
Proof.
  intros base network container_repr sent. split; [|split; [|split]].
  - intros endpoint request_data. apply failed_exchange_error.
  - intros input_data recipe H.
    destruct (failed_exchange_error _ _ container_repr _ _ _ H) as [text E].
    exists text. rewrite bake_recipe_fst, E. reflexivity.
  - intros batch_input_data recipe H.
    destruct (failed_exchange_error _ _ container_repr _ _ _ H) as [text E].
    exists text. rewrite batch_bake_recipe_fst, E. reflexivity.
  - intros input_data depth intensive_mode extensive_language_support crib_str H.
    exact (failed_exchange_error _ _ container_repr _ _ _ H).
Qed.

Lemma tools_report_failed_exchange_witness :
  exists text,
    fst (batch_bake_recipe "http://localhost:3000/" (answers boom_response)
           plain_repr ["a"; "b"] [{| op := "To Upper case"; args := None |}] [])
    = Return (JDict [("error", JStr text)]).
Proof.
  apply (proj1 (proj2 (proj2 (tools_report_failed_exchange
           "http://localhost:3000/" (answers boom_response) plain_repr [])))
           ["a"; "b"] [{| op := "To Upper case"; args := None |}]).
  unfold failed_exchange, answers, success_status. simpl. lia.
Defined.
